(** * GameList: the client-side list controller of the game catalogue

    A shallow embedding of the script block of
    [client/src/components/GameList.svelte]: the pagination window, the
    synchronisation of the filters with the query string of the browser
    location, and the fetch controller with its handlers.

    Conventions of the embedding.
    - A JavaScript number that the component handles is a page counter; it
      is embedded as [Z].  The integers up to [MAX_SAFE_INTEGER] in
      magnitude are numbers of the script one by one, and
      [Number.prototype.toString] and [Number.parseInt] agree with decimal
      notation on them; the statements on sums, products and the text of
      a number that the server or the location gives bound it so.
    - A JavaScript string is embedded as the sequence of the bytes of its
      UTF-8 encoding ([string]); the strings are supposed well formed.
    - In the main development a variable holds a value of the type its
      TypeScript declaration gives it, and so does the body of a
      response; [?.] and [??] are embedded on [option].  Module [Raw]
      embeds [fetchGames] and [updateBrowserUrl] again on values of any
      type, with the exceptions that ill-shaped bodies raise and the
      numbers that the select elements write in the filters.
    - [await] splits [fetchGames] in two steps: the synchronous prefix that
      issues the request, and the continuation run when the outcome of the
      request is known. *)

From Stdlib Require Import ZArith List String Ascii Bool Lia QArith.
From Stdlib Require Import Sorted.
From Equations Require Import Equations.
Import ListNotations.

Local Open Scope string_scope.
Local Open Scope Z_scope.

(** ** Numbers as text *)

Module Number.

Definition digit_char (d : Z) : ascii := ascii_of_nat (48 + Z.to_nat d).

(** The decimal digits of a non-negative integer, most significant
    first, in front of [acc]. *)
Equations? digits (n : Z) (acc : string) : string by wf (Z.to_nat n) lt :=
  digits n acc with Z_lt_dec n 10 => {
    | left _ := String (digit_char n) acc;
    | right _ := digits (n / 10) (String (digit_char (n mod 10)) acc) }.
Proof.
  assert (0 <= n / 10 < n) by (split; [apply Z.div_pos | apply Z.div_lt]; lia).
  lia.
Qed.

(** [n.toString()] *)
Definition toString (n : Z) : string :=
  if n <? 0 then String "-" (digits (- n) "") else digits n "".

Definition is_digit (c : ascii) : bool :=
  let k := nat_of_ascii c in (48 <=? k)%nat && (k <=? 57)%nat.

Definition digit_value (c : ascii) : Z := Z.of_nat (nat_of_ascii c) - 48.

(** The value of the longest prefix of decimal digits of [s], read after
    the digits whose value is [acc]. *)
Fixpoint read_digits (s : string) (acc : Z) : Z :=
  match s with
  | String c r => if is_digit c then read_digits r (10 * acc + digit_value c) else acc
  | EmptyString => acc
  end.

Definition byte_is (c : ascii) (k : nat) : bool := (nat_of_ascii c =? k)%nat.

(** White space and line terminators of one byte: TAB, LF, VT, FF, CR, SP. *)
Definition is_space1 (c : ascii) : bool :=
  let k := nat_of_ascii c in ((9 <=? k)%nat && (k <=? 13)%nat) || (k =? 32)%nat.

(** U+00A0 *)
Definition is_space2 (c1 c2 : ascii) : bool := byte_is c1 194 && byte_is c2 160.

(** U+1680, U+2000..U+200A, U+2028, U+2029, U+202F, U+205F, U+3000, U+FEFF *)
Definition is_space3 (c1 c2 c3 : ascii) : bool :=
  let k3 := nat_of_ascii c3 in
  (byte_is c1 225 && byte_is c2 154 && byte_is c3 128)
  || (byte_is c1 226 && byte_is c2 128
      && (((128 <=? k3)%nat && (k3 <=? 138)%nat)
          || byte_is c3 168 || byte_is c3 169 || byte_is c3 175))
  || (byte_is c1 226 && byte_is c2 129 && byte_is c3 159)
  || (byte_is c1 227 && byte_is c2 128 && byte_is c3 128)
  || (byte_is c1 239 && byte_is c2 187 && byte_is c3 191).

(** Leading white space is skipped, as [parseInt] does first. *)
Fixpoint trimStart (s : string) : string :=
  match s with
  | EmptyString => s
  | String c1 r1 =>
      if is_space1 c1 then trimStart r1
      else match r1 with
           | EmptyString => s
           | String c2 r2 =>
               if is_space2 c1 c2 then trimStart r2
               else match r2 with
                    | EmptyString => s
                    | String c3 r3 =>
                        if is_space3 c1 c2 c3 then trimStart r3 else s
                    end
           end
  end.

Definition starts_with_digit (s : string) : bool :=
  match s with
  | String c _ => is_digit c
  | EmptyString => false
  end.

(** The digits after the sign: [None] is NaN. *)
Definition parse_unsigned (s : string) : option Z :=
  if starts_with_digit s then Some (read_digits s 0) else None.

(** [Number.parseInt(s, 10)]; [None] is NaN. *)
Definition parseInt (s : string) : option Z :=
  match trimStart s with
  | String "-" r => option_map Z.opp (parse_unsigned r)
  | String "+" r => parse_unsigned r
  | t => parse_unsigned t
  end.

End Number.

(** ** The platform's [URLSearchParams]

    The list of name-value pairs, with the serializer and the parser of
    [application/x-www-form-urlencoded]. *)

Module URLSearchParams.

Definition t := list (string * string).

(** [new URLSearchParams()] *)
Definition empty : t := [].

Definition append (name value : string) (l : t) : t := (l ++ [(name, value)])%list.

Fixpoint get (name : string) (l : t) : option string :=
  match l with
  | [] => None
  | (n, v) :: r => if String.eqb n name then Some v else get name r
  end.

Definition has (name : string) (l : t) : bool :=
  match get name l with Some _ => true | None => false end.

Definition remove (name : string) (l : t) : t :=
  filter (fun p => negb (String.eqb (fst p) name)) l.

(** [set] writes the first pair of that name and removes the others, or
    appends a pair when there is none. *)
Fixpoint set (name value : string) (l : t) : t :=
  match l with
  | [] => [(name, value)]
  | (n, v) :: r =>
      if String.eqb n name then (n, value) :: remove name r
      else (n, v) :: set name value r
  end.

(** *** Serializer *)

Definition hex_digit (k : nat) : ascii :=
  if (k <? 10)%nat then ascii_of_nat (48 + k) else ascii_of_nat (55 + k).

Definition is_alnum (c : ascii) : bool :=
  let k := nat_of_ascii c in
  ((48 <=? k) && (k <=? 57) || (65 <=? k) && (k <=? 90) || (97 <=? k) && (k <=? 122))%nat.

(** Bytes left as they are: alphanumerics and [*], [-], [.], [_]. *)
Definition unreserved (c : ascii) : bool :=
  is_alnum c || Number.byte_is c 42 || Number.byte_is c 45
  || Number.byte_is c 46 || Number.byte_is c 95.

Definition encode_byte (c : ascii) : string :=
  if unreserved c then String c ""
  else if Number.byte_is c 32 then "+"
  else let k := nat_of_ascii c in
       String "%" (String (hex_digit (k / 16)) (String (hex_digit (k mod 16)) "")).

Fixpoint urlencode (s : string) : string :=
  match s with
  | EmptyString => ""
  | String c r => encode_byte c ++ urlencode r
  end.

Definition encode_pair (p : string * string) : string :=
  urlencode (fst p) ++ "=" ++ urlencode (snd p).

(** [params.toString()] *)
Fixpoint toString (l : t) : string :=
  match l with
  | [] => ""
  | [p] => encode_pair p
  | p :: r => encode_pair p ++ "&" ++ toString r
  end.

(** *** Parser *)

Fixpoint split (sep : ascii) (s : string) : list string :=
  match s with
  | EmptyString => [""]
  | String c r =>
      if Ascii.eqb c sep then "" :: split sep r
      else match split sep r with
           | h :: tl => String c h :: tl
           | [] => [String c ""]
           end
  end.

(** The name before the first [=] and the value after it; a sequence
    without [=] is a name with the empty value. *)
Fixpoint name_value (s : string) : string * string :=
  match s with
  | EmptyString => ("", "")
  | String c r =>
      if Ascii.eqb c "=" then ("", r)
      else let (n, v) := name_value r in (String c n, v)
  end.

Fixpoint plus_to_space (s : string) : string :=
  match s with
  | EmptyString => ""
  | String c r => String (if Ascii.eqb c "+" then " "%char else c) (plus_to_space r)
  end.

Definition hex_value (c : ascii) : option nat :=
  let k := nat_of_ascii c in
  if ((48 <=? k) && (k <=? 57))%nat then Some (k - 48)%nat
  else if ((65 <=? k) && (k <=? 70))%nat then Some (k - 55)%nat
  else if ((97 <=? k) && (k <=? 102))%nat then Some (k - 87)%nat
  else None.

Fixpoint percent_decode (s : string) : string :=
  match s with
  | EmptyString => ""
  | String c r =>
      if Ascii.eqb c "%" then
        match r with
        | String h1 (String h2 r') =>
            match hex_value h1, hex_value h2 with
            | Some a, Some b => String (ascii_of_nat (16 * a + b)) (percent_decode r')
            | _, _ => String c (percent_decode r)
            end
        | _ => String c (percent_decode r)
        end
      else String c (percent_decode r)
  end.

Definition decode (s : string) : string := percent_decode (plus_to_space s).

Definition is_empty (s : string) : bool :=
  match s with EmptyString => true | String _ _ => false end.

Definition parse_sequences (seqs : list string) : t :=
  map (fun b => let (n, v) := name_value b in (decode n, decode v))
      (filter (fun b => negb (is_empty b)) seqs).

(** [new URLSearchParams(init)] for a string: one leading [?] is dropped. *)
Definition parse (init : string) : t :=
  let input := match init with String "?" r => r | _ => init end in
  parse_sequences (split "&" input).

End URLSearchParams.

(** ** The browser window

    [href] is the path, query and fragment of the URL of the document. *)

Module Browser.

Record Window := { href : string }.

Definition is_delim (c : ascii) : bool := Ascii.eqb c "?" || Ascii.eqb c "#".

Fixpoint path_of (u : string) : string :=
  match u with
  | EmptyString => ""
  | String c r => if is_delim c then "" else String c (path_of r)
  end.

Fixpoint after_path (u : string) : string :=
  match u with
  | EmptyString => ""
  | String c r => if is_delim c then u else after_path r
  end.

Fixpoint until_hash (s : string) : string :=
  match s with
  | EmptyString => ""
  | String c r => if Ascii.eqb c "#" then "" else String c (until_hash r)
  end.

(** [window.location.pathname] *)
Definition pathname (w : Window) : string := path_of (href w).

(** [window.location.search]: empty when the query is absent or empty. *)
Definition search (w : Window) : string :=
  match after_path (href w) with
  | String "?" q =>
      match until_hash q with
      | EmptyString => ""
      | q' => String "?" q'
      end
  | _ => ""
  end.

(** [window.history.replaceState({}, '', url)], for a [url] that starts
    with the path of the document, the only ones the component passes:
    the entry of the session history is replaced, none is added. *)
Definition replaceState (url : string) (w : Window) : Window := {| href := url |}.

End Browser.

(** ** Data of the component *)

Module GameApiPublisher.
Record t := { id : Z; name : string }.
End GameApiPublisher.

Module GameApiCategory.
Record t := { id : Z; name : string }.
End GameApiCategory.

Module GameApiResponse.
Record t := {
  id : Z;
  title : string;
  description : string;
  publisher : option GameApiPublisher.t;
  category : option GameApiCategory.t;
  starRating : option Q }.
End GameApiResponse.

Module Game.
Record t := {
  id : Z;
  title : string;
  description : string;
  publisher_name : option string;
  category_name : option string;
  starRating : option Q }.
End Game.

Module Publisher.
Record t := { id : Z; name : string }.
End Publisher.

Module Category.
Record t := { id : Z; name : string }.
End Category.

Module Pagination.
Record t := {
  page : Z;
  per_page : Z;
  total_items : Z;
  total_pages : Z;
  has_next : bool;
  has_previous : bool }.
End Pagination.

(** The body of a successful response of [/api/games], after
    [response.json()]: both fields can be missing. *)
Module Payload.
Record t := {
  games : option (list GameApiResponse.t);
  pagination : option Pagination.t }.
End Payload.

(** [x?.f] on a value that can be missing, for a field that can be
    missing. *)
Definition opt_field {A B} (f : A -> option B) (x : option A) : option B :=
  match x with
  | Some a => f a
  | None => None
  end.
Notation "f =<< x" := (opt_field f x) (at level 50, left associativity).

(** ** What a request comes back with *)

(** A thrown value, seen as [catch] does:
    [err instanceof Error ? err.message : String(err)]. *)
Inductive Thrown :=
| ThrownError (message : string)
| ThrownValue (text : string).

Definition thrown_text (err : Thrown) : string :=
  match err with
  | ThrownError message => message
  | ThrownValue text => text
  end.

Inductive Body (A : Type) :=
| BodyInvalid (err : Thrown)      (* [response.json()] rejects *)
| BodyJson (value : A).
Arguments BodyInvalid {A} err.
Arguments BodyJson {A} value.

Record Response (A : Type) := {
  status : Z;
  statusText : string;
  body : Body A }.
Arguments status {A} r.
Arguments statusText {A} r.
Arguments body {A} r.

(** [response.ok]: the status is in the range 200-299. *)
Definition ok {A} (response : Response A) : bool :=
  (200 <=? status response) && (status response <=? 299).

Inductive Outcome (A : Type) :=
| Rejected (err : Thrown)         (* [fetch(url)] rejects *)
| Resolved (response : Response A).
Arguments Rejected {A} err.
Arguments Resolved {A} response.

(** ** Variables of the component *)

Record State := {
  games : list Game.t;
  loading : bool;
  error : option string;
  publishers : list Publisher.t;
  categories : list Category.t;
  selectedPublisherId : string;
  selectedCategoryId : string;
  pagination : Pagination.t;
  currentPage : Z;
  pageSize : Z }.

Definition pageSizeOptions : list Z := [10; 20; 50].

Definition initial : State := {|
  games := [];
  loading := true;
  error := None;
  publishers := [];
  categories := [];
  selectedPublisherId := "";
  selectedCategoryId := "";
  pagination := {| Pagination.page := 1; Pagination.per_page := 20;
                   Pagination.total_items := 0; Pagination.total_pages := 1;
                   Pagination.has_next := false; Pagination.has_previous := false |};
  currentPage := 1;
  pageSize := 20 |}.

(** The component in its environment: [window] is [None] where
    [typeof window === 'undefined']; [requests] lists the URLs handed to
    [fetch], the latest last. *)
Record World := {
  vars : State;
  window : option Browser.Window;
  requests : list string }.

Definition with_vars (f : State -> State) (w : World) : World :=
  {| vars := f (vars w); window := window w; requests := requests w |}.

Definition with_window (win : Browser.Window) (w : World) : World :=
  {| vars := vars w; window := Some win; requests := requests w |}.

Definition fetch (url : string) (w : World) : World :=
  {| vars := vars w; window := window w; requests := (requests w ++ [url])%list |}.

Definition set_games (v : list Game.t) (s : State) : State :=
  {| games := v; loading := loading s; error := error s; publishers := publishers s;
     categories := categories s; selectedPublisherId := selectedPublisherId s;
     selectedCategoryId := selectedCategoryId s; pagination := pagination s;
     currentPage := currentPage s; pageSize := pageSize s |}.

Definition set_loading (v : bool) (s : State) : State :=
  {| games := games s; loading := v; error := error s; publishers := publishers s;
     categories := categories s; selectedPublisherId := selectedPublisherId s;
     selectedCategoryId := selectedCategoryId s; pagination := pagination s;
     currentPage := currentPage s; pageSize := pageSize s |}.

Definition set_error (v : string) (s : State) : State :=
  {| games := games s; loading := loading s; error := Some v; publishers := publishers s;
     categories := categories s; selectedPublisherId := selectedPublisherId s;
     selectedCategoryId := selectedCategoryId s; pagination := pagination s;
     currentPage := currentPage s; pageSize := pageSize s |}.

Definition set_publishers (v : list Publisher.t) (s : State) : State :=
  {| games := games s; loading := loading s; error := error s; publishers := v;
     categories := categories s; selectedPublisherId := selectedPublisherId s;
     selectedCategoryId := selectedCategoryId s; pagination := pagination s;
     currentPage := currentPage s; pageSize := pageSize s |}.

Definition set_categories (v : list Category.t) (s : State) : State :=
  {| games := games s; loading := loading s; error := error s; publishers := publishers s;
     categories := v; selectedPublisherId := selectedPublisherId s;
     selectedCategoryId := selectedCategoryId s; pagination := pagination s;
     currentPage := currentPage s; pageSize := pageSize s |}.

Definition set_selectedPublisherId (v : string) (s : State) : State :=
  {| games := games s; loading := loading s; error := error s; publishers := publishers s;
     categories := categories s; selectedPublisherId := v;
     selectedCategoryId := selectedCategoryId s; pagination := pagination s;
     currentPage := currentPage s; pageSize := pageSize s |}.

Definition set_selectedCategoryId (v : string) (s : State) : State :=
  {| games := games s; loading := loading s; error := error s; publishers := publishers s;
     categories := categories s; selectedPublisherId := selectedPublisherId s;
     selectedCategoryId := v; pagination := pagination s;
     currentPage := currentPage s; pageSize := pageSize s |}.

Definition set_pagination (v : Pagination.t) (s : State) : State :=
  {| games := games s; loading := loading s; error := error s; publishers := publishers s;
     categories := categories s; selectedPublisherId := selectedPublisherId s;
     selectedCategoryId := selectedCategoryId s; pagination := v;
     currentPage := currentPage s; pageSize := pageSize s |}.

Definition set_currentPage (v : Z) (s : State) : State :=
  {| games := games s; loading := loading s; error := error s; publishers := publishers s;
     categories := categories s; selectedPublisherId := selectedPublisherId s;
     selectedCategoryId := selectedCategoryId s; pagination := pagination s;
     currentPage := v; pageSize := pageSize s |}.

Definition set_pageSize (v : Z) (s : State) : State :=
  {| games := games s; loading := loading s; error := error s; publishers := publishers s;
     categories := categories s; selectedPublisherId := selectedPublisherId s;
     selectedCategoryId := selectedCategoryId s; pagination := pagination s;
     currentPage := currentPage s; pageSize := v |}.

(** A string in a condition: the empty string is falsy. *)
Definition truthy (s : string) : bool := negb (URLSearchParams.is_empty s).

(** ** Reactive declarations *)

Definition totalItems (s : State) : Z := Pagination.total_items (pagination s).

Definition showingStart (s : State) : Z :=
  if totalItems s =? 0 then 0
  else (Pagination.page (pagination s) - 1) * Pagination.per_page (pagination s) + 1.

Definition showingEnd (s : State) : Z :=
  if totalItems s =? 0 then 0
  else Z.min (Pagination.page (pagination s) * Pagination.per_page (pagination s)) (totalItems s).

Inductive PageItem :=
| PageNum (n : Z)
| Ellipsis.                        (* the string '...' *)

(** [Array.from({ length }, (_, i) => f(i))] *)
Definition Array_from {A} (length : Z) (f : Z -> A) : list A :=
  map (fun i => f (Z.of_nat i)) (seq 0 (Z.to_nat length)).

(** [for (let i = lo; i <= hi; i++) items.push(i)], entered with [i] *)
Equations? push_pages (i hi : Z) (items : list PageItem) : list PageItem
  by wf (Z.to_nat (hi + 1 - i)) lt :=
  push_pages i hi items with Z_le_dec i hi => {
    | left _ := push_pages (i + 1) hi (items ++ [PageNum i])%list;
    | right _ := items }.
Proof. lia. Qed.

Definition paginationItems (s : State) : list PageItem :=
  let total := Pagination.total_pages (pagination s) in
  let current := Pagination.page (pagination s) in
  let windowSize := 2 in
  if total <=? 7 then Array_from total (fun i => PageNum (i + 1))
  else
    let items := [] in
    let items := (items ++ [PageNum 1])%list in
    let items := if current >? windowSize + 2 then (items ++ [Ellipsis])%list else items in
    let items := push_pages (Z.max 2 (current - windowSize))
                            (Z.min (total - 1) (current + windowSize)) items in
    let items := if current <? total - windowSize - 1 then (items ++ [Ellipsis])%list else items in
    (items ++ [PageNum total])%list.

(** ** The query string of the location *)

Definition syncFiltersFromUrl (w : World) : World :=
  match window w with
  | None => w
  | Some win =>
      let params := URLSearchParams.parse (Browser.search win) in
      let urlCategoryId :=
        match URLSearchParams.get "category_id" params with Some v => v | None => "" end in
      let urlPublisherId :=
        match URLSearchParams.get "publisher_id" params with Some v => v | None => "" end in
      let urlPage := URLSearchParams.get "page" params in
      let urlPerPage := URLSearchParams.get "per_page" params in
      let w := with_vars (set_selectedCategoryId urlCategoryId) w in
      let w := with_vars (set_selectedPublisherId urlPublisherId) w in
      let parsedPage :=
        match urlPage with
        | Some v => if truthy v then Number.parseInt v else Some 1
        | None => Some 1
        end in
      let w :=
        with_vars (set_currentPage
                     match parsedPage with
                     | None => 1
                     | Some n => if n <? 1 then 1 else n
                     end) w in
      match urlPerPage with
      | Some v =>
          if truthy v then
            match Number.parseInt v with
            | Some parsedPerPage =>
                if existsb (Z.eqb parsedPerPage) pageSizeOptions
                then with_vars (set_pageSize parsedPerPage) w
                else w
            | None => w
            end
          else w
      | None => w
      end
  end.

(** [`${prefix}${queryString ? sep + queryString : ''}`] *)
Definition with_query (prefix queryString : string) : string :=
  prefix ++ (if truthy queryString then "?" ++ queryString else "").

Definition updateBrowserUrl (paginationState : Pagination.t) (w : World) : World :=
  match window w with
  | None => w
  | Some win =>
      let params := URLSearchParams.empty in
      let params :=
        if truthy (selectedCategoryId (vars w))
        then URLSearchParams.set "category_id" (selectedCategoryId (vars w)) params
        else params in
      let params :=
        if truthy (selectedPublisherId (vars w))
        then URLSearchParams.set "publisher_id" (selectedPublisherId (vars w)) params
        else params in
      let params :=
        URLSearchParams.set "page" (Number.toString (Pagination.page paginationState)) params in
      let params :=
        URLSearchParams.set "per_page" (Number.toString (Pagination.per_page paginationState)) params in
      let queryString := URLSearchParams.toString params in
      let newUrl := with_query (Browser.pathname win) queryString in
      with_window (Browser.replaceState newUrl win) w
  end.

(** ** The fetch controller *)

Definition games_url (s : State) : string :=
  let params := URLSearchParams.empty in
  let params :=
    if truthy (selectedPublisherId s)
    then URLSearchParams.append "publisher_id" (selectedPublisherId s) params
    else params in
  let params :=
    if truthy (selectedCategoryId s)
    then URLSearchParams.append "category_id" (selectedCategoryId s) params
    else params in
  let params := URLSearchParams.append "page" (Number.toString (currentPage s)) params in
  let params := URLSearchParams.append "per_page" (Number.toString (pageSize s)) params in
  with_query "/api/games" (URLSearchParams.toString params).

(** [fetchGames] up to [await fetch(url)]. *)
Definition fetchGames_begin (w : World) : World :=
  let w := with_vars (set_loading true) w in
  fetch (games_url (vars w)) w.

Definition to_game (game : GameApiResponse.t) : Game.t :=
  {| Game.id := GameApiResponse.id game;
     Game.title := GameApiResponse.title game;
     Game.description := GameApiResponse.description game;
     Game.publisher_name := option_map GameApiPublisher.name (GameApiResponse.publisher game);
     Game.category_name := option_map GameApiCategory.name (GameApiResponse.category game);
     Game.starRating := GameApiResponse.starRating game |}.

(** [payload?.games ?? []] *)
Definition payload_games (payload : option Payload.t) : list GameApiResponse.t :=
  match payload with
  | Some p => match Payload.games p with Some gs => gs | None => [] end
  | None => []
  end.

(** [payload?.pagination ?? pagination] *)
Definition payload_pagination (payload : option Payload.t) (pagination : Pagination.t)
  : Pagination.t :=
  match payload with
  | Some p => match Payload.pagination p with Some pg => pg | None => pagination end
  | None => pagination
  end.

(** The rest of the [try] block, from the outcome of the request on: the
    world where the block ends, and the exception when it ends by one. *)
Definition fetchGames_try (outcome : Outcome (option Payload.t)) (w : World)
  : World * option Thrown :=
  match outcome with
  | Rejected err => (w, Some err)
  | Resolved response =>
      if ok response then
        match body response with
        | BodyInvalid err => (w, Some err)
        | BodyJson payload =>
            let apiGames := payload_games payload in
            let apiPagination := payload_pagination payload (pagination (vars w)) in
            let w := with_vars (set_games (map to_game apiGames)) w in
            let w := with_vars (set_pagination apiPagination) w in
            let w := with_vars (set_currentPage (Pagination.page (pagination (vars w)))) w in
            let w := with_vars (set_pageSize (Pagination.per_page (pagination (vars w)))) w in
            (updateBrowserUrl (pagination (vars w)) w, None)
        end
      else
        (with_vars (set_error ("Failed to fetch data: " ++ Number.toString (status response)
                               ++ " " ++ statusText response)) w, None)
  end.

(** [fetchGames] from the outcome of the request on, with [catch] and
    [finally]. *)
Definition fetchGames_resume (outcome : Outcome (option Payload.t)) (w : World) : World :=
  let (w, thrown) := fetchGames_try outcome w in
  let w :=
    match thrown with
    | Some err => with_vars (set_error ("Error: " ++ thrown_text err)) w
    | None => w
    end in
  with_vars (set_loading false) w.

(** A whole call of [fetchGames] that nothing interleaves with. *)
Definition fetchGames (outcome : Outcome (option Payload.t)) (w : World) : World :=
  fetchGames_resume outcome (fetchGames_begin w).

Definition fetchPublishers_begin (w : World) : World := fetch "/api/publishers" w.

(** A rejection or an invalid body is logged on the console only. *)
Definition fetchPublishers_resume (outcome : Outcome (list Publisher.t)) (w : World) : World :=
  match outcome with
  | Rejected _ => w
  | Resolved response =>
      if ok response then
        match body response with
        | BodyInvalid _ => w
        | BodyJson value => with_vars (set_publishers value) w
        end
      else w
  end.

Definition fetchCategories_begin (w : World) : World := fetch "/api/categories" w.

Definition fetchCategories_resume (outcome : Outcome (list Category.t)) (w : World) : World :=
  match outcome with
  | Rejected _ => w
  | Resolved response =>
      if ok response then
        match body response with
        | BodyInvalid _ => w
        | BodyJson value => with_vars (set_categories value) w
        end
      else w
  end.

(** ** Handlers *)

Definition handleFilterChange (w : World) : World :=
  let w := with_vars (set_currentPage 1) w in
  fetchGames_begin w.

Definition clearFilters (w : World) : World :=
  let w := with_vars (set_selectedPublisherId "") w in
  let w := with_vars (set_selectedCategoryId "") w in
  let w := with_vars (set_currentPage 1) w in
  fetchGames_begin w.

Definition changePage (page : Z) (w : World) : World :=
  if negb (page =? currentPage (vars w)) && (1 <=? page)
     && (page <=? Pagination.total_pages (pagination (vars w)))
  then
    let w := with_vars (set_currentPage page) w in
    fetchGames_begin w
  else w.

Definition changePageSize (size : Z) (w : World) : World :=
  let w := with_vars (set_pageSize size) w in
  let w := with_vars (set_currentPage 1) w in
  fetchGames_begin w.

Definition onMount (w : World) : World :=
  let w := syncFiltersFromUrl w in
  let w := fetchPublishers_begin w in
  let w := fetchCategories_begin w in
  fetchGames_begin w.

(** ** What the template shows

    The last branch, for a list that is not empty, iterates [pageNumbers],
    a name that the script does not declare: rendering it throws a
    [ReferenceError]. *)

Inductive View :=
| ViewLoading
| ViewError (message : string)
| ViewEmpty
| ViewThrows.

Definition view (s : State) : View :=
  if loading s then ViewLoading
  else
    match error s with
    | Some message =>
        if truthy message then ViewError message
        else match games s with [] => ViewEmpty | _ => ViewThrows end
    | None => match games s with [] => ViewEmpty | _ => ViewThrows end
    end.

(** ** Runs of the component

    What can happen to a mounted component: a choice in one of the
    [select] elements (the binding writes the variable, then the handler
    runs), a click, or the arrival of the outcome of a request.  The
    value of a chosen option is taken here as the text of its identifier;
    Module [Raw] has the filters as the numbers that the options hold. *)

Inductive Event :=
| SelectCategory (value : string)
| SelectPublisher (value : string)
| ClickClearFilters
| ClickPage (page : Z)
| SelectPageSize (size : Z)
| GamesArrive (outcome : Outcome (option Payload.t))
| PublishersArrive (outcome : Outcome (list Publisher.t))
| CategoriesArrive (outcome : Outcome (list Category.t)).

Definition step (w : World) (e : Event) : World :=
  match e with
  | SelectCategory value => handleFilterChange (with_vars (set_selectedCategoryId value) w)
  | SelectPublisher value => handleFilterChange (with_vars (set_selectedPublisherId value) w)
  | ClickClearFilters => clearFilters w
  | ClickPage page => changePage page w
  | SelectPageSize size => changePageSize size (with_vars (set_pageSize size) w)
  | GamesArrive outcome => fetchGames_resume outcome w
  | PublishersArrive outcome => fetchPublishers_resume outcome w
  | CategoriesArrive outcome => fetchCategories_resume outcome w
  end.

Definition run (w : World) (es : list Event) : World := fold_left step es w.

(** ** The pagination window as the specification words it *)

(** Every integer of [[lo, hi]], in increasing order. *)
Definition Zrange (lo hi : Z) : list Z :=
  map (fun k => lo + Z.of_nat k) (seq 0 (Z.to_nat (hi + 1 - lo))).

Definition computeWindow (current total windowSize : Z) : list PageItem :=
  if total <=? 7 then map PageNum (Zrange 1 total)
  else
    ([PageNum 1]
     ++ (if current >? windowSize + 2 then [Ellipsis] else [])
     ++ map PageNum (Zrange (Z.max 2 (current - windowSize))
                            (Z.min (total - 1) (current + windowSize)))
     ++ (if current <? total - windowSize - 1 then [Ellipsis] else [])
     ++ [PageNum total])%list.

(** The numeric entries of a window, in order. *)
Fixpoint page_numbers (items : list PageItem) : list Z :=
  match items with
  | [] => []
  | PageNum n :: r => n :: page_numbers r
  | Ellipsis :: r => page_numbers r
  end.

(** A page load: a new component, with variables [s], in the window that
    [w] leaves. *)
Definition reload (s : State) (w : World) : World :=
  {| vars := s; window := window w; requests := [] |}.

(** The pairs that [updateBrowserUrl] hands to the serializer. *)
Definition written_pairs (s : State) (paginationState : Pagination.t) : URLSearchParams.t :=
  ((if truthy (selectedCategoryId s) then [("category_id", selectedCategoryId s)] else [])
   ++ (if truthy (selectedPublisherId s) then [("publisher_id", selectedPublisherId s)] else [])
   ++ [("page", Number.toString (Pagination.page paginationState));
       ("per_page", Number.toString (Pagination.per_page paginationState))])%list.

(** ** Vocabulary of the properties *)

(** The outcomes for which [fetchGames] records an error: a status out of
    the range 200-299, or an exception thrown by [fetch] or by
    [response.json()]. *)
Definition failed {A} (outcome : Outcome A) : bool :=
  match outcome with
  | Rejected _ => true
  | Resolved response =>
      if ok response then
        match body response with
        | BodyInvalid _ => true
        | BodyJson _ => false
        end
      else true
  end.

(** What a failing outcome writes in [error]. *)
Definition failure_message {A} (outcome : Outcome A) : string :=
  match outcome with
  | Rejected err => "Error: " ++ thrown_text err
  | Resolved response =>
      if ok response then
        match body response with
        | BodyInvalid err => "Error: " ++ thrown_text err
        | BodyJson _ => ""
        end
      else "Failed to fetch data: " ++ Number.toString (status response)
           ++ " " ++ statusText response
  end.

(** The variables after a body that is JSON has been taken in. *)
Definition installed (payload : option Payload.t) (s : State) : State :=
  let pg := payload_pagination payload (pagination s) in
  set_pageSize (Pagination.per_page pg)
    (set_currentPage (Pagination.page pg)
       (set_pagination pg (set_games (map to_game (payload_games payload)) s))).

(** A body that is JSON but lacks [games] or [pagination]. *)
Definition lacks_fields (payload : option Payload.t) : Prop :=
  match payload with
  | None => True
  | Some p => Payload.games p = None \/ Payload.pagination p = None
  end.

(** Every variable but [error] and [loading] has the same value. *)
Definition same_data (s s' : State) : Prop :=
  games s' = games s
  /\ publishers s' = publishers s
  /\ categories s' = categories s
  /\ selectedPublisherId s' = selectedPublisherId s
  /\ selectedCategoryId s' = selectedCategoryId s
  /\ pagination s' = pagination s
  /\ currentPage s' = currentPage s
  /\ pageSize s' = pageSize s.

(** The parameters in the query string of the URL of a request. *)
Definition query_of (url : string) : URLSearchParams.t :=
  URLSearchParams.parse (Browser.search {| Browser.href := url |}).

(** The world of a component about to be mounted in a window. *)
Definition mounting (win : Browser.Window) : World :=
  {| vars := initial; window := Some win; requests := [] |}.

Definition mounted (win : Browser.Window) : World := onMount (mounting win).

Definition page_of (page per_page total_items total_pages : Z) : Pagination.t :=
  {| Pagination.page := page; Pagination.per_page := per_page;
     Pagination.total_items := total_items; Pagination.total_pages := total_pages;
     Pagination.has_next := page <? total_pages; Pagination.has_previous := 1 <? page |}.

Definition json_ok {A} (value : A) : Outcome A :=
  Resolved {| status := 200; statusText := "OK"; body := BodyJson value |}.

Definition http_error {A} (code : Z) (text : string) : Outcome A :=
  Resolved {| status := code; statusText := text;
              body := BodyInvalid (ThrownError "Unexpected token < in JSON") |}.

(** The pairs that [fetchGames] hands to the serializer. *)
Definition request_pairs (s : State) : URLSearchParams.t :=
  ((if truthy (selectedPublisherId s) then [("publisher_id", selectedPublisherId s)] else [])
   ++ (if truthy (selectedCategoryId s) then [("category_id", selectedCategoryId s)] else [])
   ++ [("page", Number.toString (currentPage s));
       ("per_page", Number.toString (pageSize s))])%list.

(** The parameters of the location that a component mounted in [win]
    reads, and its variables once [syncFiltersFromUrl] has run. *)
Definition location_params (win : Browser.Window) : URLSearchParams.t :=
  URLSearchParams.parse (Browser.search win).

Definition synced (win : Browser.Window) : State :=
  vars (syncFiltersFromUrl (mounting win)).

(** ** Predicates on text *)

Fixpoint string_forall (P : ascii -> bool) (s : string) : bool :=
  match s with
  | EmptyString => true
  | String c r => P c && string_forall P r
  end.

(** The bytes that the serializer of [URLSearchParams] writes for a name
    or a value. *)
Definition encoded_char (c : ascii) : bool :=
  URLSearchParams.unreserved c || Ascii.eqb c "+" || Ascii.eqb c "%".

Definition is_not (sep : ascii) (c : ascii) : bool := negb (Ascii.eqb c sep).

(** [s] occurs in [t]. *)
Definition contains (t s : string) : Prop := exists a b : string, t = a ++ s ++ b.

(** ** More of the template *)


(** ** The component before pagination

    The second script of the file: the same component without pagination
    and without the location. *)

Module Legacy.

Module Game.
Record t := {
  id : Z;
  title : string;
  description : string;
  publisher_name : option string;
  category_name : option string }.
End Game.

Record State := {
  games : list Game.t;
  loading : bool;
  error : option string;
  publishers : list Publisher.t;
  categories : list Category.t;
  selectedPublisherId : string;
  selectedCategoryId : string }.

Definition initial : State := {|
  games := [];
  loading := true;
  error := None;
  publishers := [];
  categories := [];
  selectedPublisherId := "";
  selectedCategoryId := "" |}.

Record World := {
  vars : State;
  requests : list string }.

Definition with_vars (f : State -> State) (w : World) : World :=
  {| vars := f (vars w); requests := requests w |}.

Definition fetch (url : string) (w : World) : World :=
  {| vars := vars w; requests := (requests w ++ [url])%list |}.

Definition set_games (v : list Game.t) (s : State) : State :=
  {| games := v; loading := loading s; error := error s; publishers := publishers s;
     categories := categories s; selectedPublisherId := selectedPublisherId s;
     selectedCategoryId := selectedCategoryId s |}.

Definition set_loading (v : bool) (s : State) : State :=
  {| games := games s; loading := v; error := error s; publishers := publishers s;
     categories := categories s; selectedPublisherId := selectedPublisherId s;
     selectedCategoryId := selectedCategoryId s |}.

Definition set_error (v : string) (s : State) : State :=
  {| games := games s; loading := loading s; error := Some v; publishers := publishers s;
     categories := categories s; selectedPublisherId := selectedPublisherId s;
     selectedCategoryId := selectedCategoryId s |}.

Definition set_publishers (v : list Publisher.t) (s : State) : State :=
  {| games := games s; loading := loading s; error := error s; publishers := v;
     categories := categories s; selectedPublisherId := selectedPublisherId s;
     selectedCategoryId := selectedCategoryId s |}.

Definition set_categories (v : list Category.t) (s : State) : State :=
  {| games := games s; loading := loading s; error := error s; publishers := publishers s;
     categories := v; selectedPublisherId := selectedPublisherId s;
     selectedCategoryId := selectedCategoryId s |}.

Definition set_selectedPublisherId (v : string) (s : State) : State :=
  {| games := games s; loading := loading s; error := error s; publishers := publishers s;
     categories := categories s; selectedPublisherId := v;
     selectedCategoryId := selectedCategoryId s |}.

Definition set_selectedCategoryId (v : string) (s : State) : State :=
  {| games := games s; loading := loading s; error := error s; publishers := publishers s;
     categories := categories s; selectedPublisherId := selectedPublisherId s;
     selectedCategoryId := v |}.

Definition games_url (s : State) : string :=
  let params := URLSearchParams.empty in
  let params :=
    if truthy (selectedPublisherId s)
    then URLSearchParams.append "publisher_id" (selectedPublisherId s) params
    else params in
  let params :=
    if truthy (selectedCategoryId s)
    then URLSearchParams.append "category_id" (selectedCategoryId s) params
    else params in
  with_query "/api/games" (URLSearchParams.toString params).

Definition fetchGames_begin (w : World) : World :=
  let w := with_vars (set_loading true) w in
  fetch (games_url (vars w)) w.

Definition fetchGames_try (outcome : Outcome (list Game.t)) (w : World)
  : World * option Thrown :=
  match outcome with
  | Rejected err => (w, Some err)
  | Resolved response =>
      if ok response then
        match body response with
        | BodyInvalid err => (w, Some err)
        | BodyJson value => (with_vars (set_games value) w, None)
        end
      else
        (with_vars (set_error ("Failed to fetch data: " ++ Number.toString (status response)
                               ++ " " ++ statusText response)) w, None)
  end.

Definition fetchGames_resume (outcome : Outcome (list Game.t)) (w : World) : World :=
  let (w, thrown) := fetchGames_try outcome w in
  let w :=
    match thrown with
    | Some err => with_vars (set_error ("Error: " ++ thrown_text err)) w
    | None => w
    end in
  with_vars (set_loading false) w.

Definition fetchPublishers_begin (w : World) : World := fetch "/api/publishers" w.

Definition fetchPublishers_resume (outcome : Outcome (list Publisher.t)) (w : World) : World :=
  match outcome with
  | Rejected _ => w
  | Resolved response =>
      if ok response then
        match body response with
        | BodyInvalid _ => w
        | BodyJson value => with_vars (set_publishers value) w
        end
      else w
  end.

Definition fetchCategories_begin (w : World) : World := fetch "/api/categories" w.

Definition fetchCategories_resume (outcome : Outcome (list Category.t)) (w : World) : World :=
  match outcome with
  | Rejected _ => w
  | Resolved response =>
      if ok response then
        match body response with
        | BodyInvalid _ => w
        | BodyJson value => with_vars (set_categories value) w
        end
      else w
  end.

Definition handleFilterChange (w : World) : World := fetchGames_begin w.

Definition clearFilters (w : World) : World :=
  let w := with_vars (set_selectedPublisherId "") w in
  let w := with_vars (set_selectedCategoryId "") w in
  fetchGames_begin w.

Definition onMount (w : World) : World :=
  let w := fetchPublishers_begin w in
  let w := fetchCategories_begin w in
  fetchGames_begin w.

Inductive View :=
| ViewLoading
| ViewError (message : string)
| ViewEmpty
| ViewGrid (items : list Game.t).

Definition view (s : State) : View :=
  if loading s then ViewLoading
  else
    match error s with
    | Some message =>
        if truthy message then ViewError message
        else match games s with [] => ViewEmpty | items => ViewGrid items end
    | None => match games s with [] => ViewEmpty | items => ViewGrid items end
    end.

Inductive Event :=
| SelectCategory (value : string)
| SelectPublisher (value : string)
| ClickClearFilters
| GamesArrive (outcome : Outcome (list Game.t))
| PublishersArrive (outcome : Outcome (list Publisher.t))
| CategoriesArrive (outcome : Outcome (list Category.t)).

Definition step (w : World) (e : Event) : World :=
  match e with
  | SelectCategory value => handleFilterChange (with_vars (set_selectedCategoryId value) w)
  | SelectPublisher value => handleFilterChange (with_vars (set_selectedPublisherId value) w)
  | ClickClearFilters => clearFilters w
  | GamesArrive outcome => fetchGames_resume outcome w
  | PublishersArrive outcome => fetchPublishers_resume outcome w
  | CategoriesArrive outcome => fetchCategories_resume outcome w
  end.

Definition run (w : World) (es : list Event) : World := fold_left step es w.

Definition mounted : World := onMount {| vars := initial; requests := [] |}.

End Legacy.

(** ** Vocabulary of further properties *)

(** [Number.MAX_SAFE_INTEGER], 2^53 - 1: up to it the integers are
    numbers of the script one by one, their sums and products are exact
    and [toString] prints all their digits. *)
Definition MAX_SAFE_INTEGER : Z := 9007199254740991.

(** A page and a page size that the server accepts. *)
Definition valid_page_and_size (page size : Z) : Prop :=
  1 <= page <= MAX_SAFE_INTEGER /\ In size pageSizeOptions.

(** The events of a run in which the user picks a page size among the
    options of the [select] and asks for no page above
    [MAX_SAFE_INTEGER], and the server sends metadata with a page between
    1 and [MAX_SAFE_INTEGER] and a page size among those it supports. *)
Definition expected (e : Event) : Prop :=
  match e with
  | SelectPageSize size => In size pageSizeOptions
  | ClickPage page => page <= MAX_SAFE_INTEGER
  | GamesArrive (Resolved response) =>
      match body response with
      | BodyJson (Some payload) =>
          match Payload.pagination payload with
          | Some pg => valid_page_and_size (Pagination.page pg) (Pagination.per_page pg)
          | None => True
          end
      | _ => True
      end
  | _ => True
  end.

(** A request of the component that the server accepts: one of the two
    for reference data, or one for games whose query asks for a page
    between 1 and [MAX_SAFE_INTEGER] with a supported size. *)
Definition well_formed_request (url : string) : Prop :=
  url = "/api/publishers" \/ url = "/api/categories"
  \/ exists page size,
       valid_page_and_size page size
       /\ URLSearchParams.get "page" (query_of url) = Some (Number.toString page)
       /\ URLSearchParams.get "per_page" (query_of url) = Some (Number.toString size).

(** A successful response whose body has both fields. *)
Definition full_response (gs : list GameApiResponse.t) (pg : Pagination.t)
  : Outcome (option Payload.t) :=
  json_ok (Some {| Payload.games := Some gs; Payload.pagination := Some pg |}).


(** The variables that [syncFiltersFromUrl] leaves when the location has
    the parameters [params]. *)
Definition read_params (params : URLSearchParams.t) (s : State) : State :=
  let page :=
    match URLSearchParams.get "page" params with
    | Some v =>
        match Number.parseInt v with
        | Some n => if n <? 1 then 1 else n
        | None => 1
        end
    | None => 1
    end in
  let size :=
    match URLSearchParams.get "per_page" params with
    | Some v =>
        match Number.parseInt v with
        | Some n => if existsb (Z.eqb n) pageSizeOptions then n else pageSize s
        | None => pageSize s
        end
    | None => pageSize s
    end in
  set_pageSize size
    (set_currentPage page
       (set_selectedPublisherId
          match URLSearchParams.get "publisher_id" params with Some v => v | None => "" end
          (set_selectedCategoryId
             match URLSearchParams.get "category_id" params with Some v => v | None => "" end
             s))).

(** The current page, the page size and the metadata are acceptable, and
    so is every request issued so far. *)
Definition healthy (w : World) : Prop :=
  valid_page_and_size (currentPage (vars w)) (pageSize (vars w))
  /\ valid_page_and_size (Pagination.page (pagination (vars w)))
                         (Pagination.per_page (pagination (vars w)))
  /\ Forall well_formed_request (requests w).

(** ** The fetch controller on bodies and identifiers of any type

    [response.json()] gives a value of any shape, and the binding of a
    [select] writes the value of the chosen option, a number for the
    options built from the reference data.  This module embeds
    [fetchGames] from the outcome of the request on, and
    [updateBrowserUrl], on the values the script can then meet, with the
    exceptions that their operations throw.  JSON numbers are embedded as
    integers.  The fields of an object are listed in the order of the JSON
    text; a name that occurs twice has its last value. *)

Module Raw.

#[local] Set Warnings "-register-all".

Inductive Value :=
| VUndefined
| VNull
| VBool (b : bool)
| VNumber (n : Z)
| VString (s : string)
| VArray (items : list Value)
| VObject (fields : list (string * Value)).

(** The [TypeError]s of the operations below; their messages depend on the
    engine. *)
Inductive TypeErrorKind :=
| ReadOfNullish (property : string)     (* a property of [undefined] or [null] is read *)
| NotAFunction (callee : string)        (* what is called is not a function *)
| NoPrimitive.                          (* an object has no primitive value *)

Definition nullish (v : Value) : bool :=
  match v with
  | VUndefined | VNull => true
  | _ => false
  end.

(** [a ?? b] *)
Definition coalesce (a b : Value) : Value := if nullish a then b else a.

(** A value in a condition. *)
Definition truthy (v : Value) : bool :=
  match v with
  | VUndefined | VNull => false
  | VBool b => b
  | VNumber n => negb (n =? 0)
  | VString s => negb (URLSearchParams.is_empty s)
  | VArray _ | VObject _ => true
  end.

Fixpoint lookup (name : string) (fields : list (string * Value)) : option Value :=
  match fields with
  | [] => None
  | (k, v) :: r =>
      match lookup name r with
      | Some later => Some later
      | None => if String.eqb k name then Some v else None
      end
  end.

(** [v.name] for a [v] that is neither [undefined] nor [null], and a
    [name] among those of data that the script reads ([games],
    [pagination], [page], [per_page], [id], [title], [description],
    [publisher], [category], [name], [starRating]): only an object has
    such properties. *)
Definition prop (v : Value) (name : string) : Value :=
  match v with
  | VObject fields => match lookup name fields with Some x => x | None => VUndefined end
  | _ => VUndefined
  end.

(** [v?.name] *)
Definition optional (v : Value) (name : string) : Value :=
  if nullish v then VUndefined else prop v name.

Definition has_own (name : string) (v : Value) : bool :=
  match v with
  | VObject fields => match lookup name fields with Some _ => true | None => false end
  | _ => false
  end.

Definition join (parts : list string) : string :=
  match parts with
  | [] => ""
  | first :: rest => fold_left (fun acc part => acc ++ "," ++ part) rest first
  end.

Definition all_right {A} (l : list (TypeErrorKind + A)) : TypeErrorKind + list A :=
  fold_right
    (fun x acc =>
       match x, acc with
       | inl k, _ => inl k
       | inr _, inl k => inl k
       | inr a, inr r => inr (a :: r)
       end)
    (inr []) l.

(** [String(v)], the conversion that [URLSearchParams] applies to a value:
    an array is the join of its elements, the empty string standing for
    [undefined] and [null]; an object is [[object Object]], unless it has
    a [toString] of its own, which is no function, so that no primitive
    value is found. *)
Fixpoint to_string (v : Value) : TypeErrorKind + string :=
  match v with
  | VUndefined => inr "undefined"
  | VNull => inr "null"
  | VBool b => inr (if b then "true" else "false")
  | VNumber n => inr (Number.toString n)
  | VString s => inr s
  | VArray items =>
      match all_right (map (fun x => if nullish x then inr "" else to_string x) items) with
      | inl k => inl k
      | inr parts => inr (join parts)
      end
  | VObject fields =>
      if has_own "toString" v then inl NoPrimitive else inr "[object Object]"
  end.

(** [v.toString()] *)
Definition call_toString (v : Value) : TypeErrorKind + string :=
  if nullish v then inl (ReadOfNullish "toString")
  else if has_own "toString" v then inl (NotAFunction "toString")
  else to_string v.

Module Game.
Record t := {
  id : Value;
  title : Value;
  description : Value;
  publisher_name : Value;
  category_name : Value;
  starRating : Value }.
End Game.

(** The variables that [fetchGames] and [updateBrowserUrl] read or write. *)
Record State := {
  games : list Game.t;
  loading : bool;
  error : option string;
  selectedPublisherId : Value;
  selectedCategoryId : Value;
  pagination : Value;
  currentPage : Value;
  pageSize : Value }.

Record World := {
  vars : State;
  window : option Browser.Window }.

Definition with_vars (f : State -> State) (w : World) : World :=
  {| vars := f (vars w); window := window w |}.

Definition set_games (v : list Game.t) (s : State) : State :=
  {| games := v; loading := loading s; error := error s;
     selectedPublisherId := selectedPublisherId s; selectedCategoryId := selectedCategoryId s;
     pagination := pagination s; currentPage := currentPage s; pageSize := pageSize s |}.

Definition set_loading (v : bool) (s : State) : State :=
  {| games := games s; loading := v; error := error s;
     selectedPublisherId := selectedPublisherId s; selectedCategoryId := selectedCategoryId s;
     pagination := pagination s; currentPage := currentPage s; pageSize := pageSize s |}.

Definition set_error (v : string) (s : State) : State :=
  {| games := games s; loading := loading s; error := Some v;
     selectedPublisherId := selectedPublisherId s; selectedCategoryId := selectedCategoryId s;
     pagination := pagination s; currentPage := currentPage s; pageSize := pageSize s |}.

Definition set_pagination (v : Value) (s : State) : State :=
  {| games := games s; loading := loading s; error := error s;
     selectedPublisherId := selectedPublisherId s; selectedCategoryId := selectedCategoryId s;
     pagination := v; currentPage := currentPage s; pageSize := pageSize s |}.

Definition set_currentPage (v : Value) (s : State) : State :=
  {| games := games s; loading := loading s; error := error s;
     selectedPublisherId := selectedPublisherId s; selectedCategoryId := selectedCategoryId s;
     pagination := pagination s; currentPage := v; pageSize := pageSize s |}.

Definition set_pageSize (v : Value) (s : State) : State :=
  {| games := games s; loading := loading s; error := error s;
     selectedPublisherId := selectedPublisherId s; selectedCategoryId := selectedCategoryId s;
     pagination := pagination s; currentPage := currentPage s; pageSize := v |}.

Section Engine.

(** The message that the engine gives to a [TypeError]. *)
Variable engine : TypeErrorKind -> string.

Definition type_error (k : TypeErrorKind) : Thrown := ThrownError (engine k).

(** [v.name], which throws on [undefined] and [null]. *)
Definition read (v : Value) (name : string) : TypeErrorKind + Value :=
  if nullish v then inl (ReadOfNullish name) else inr (prop v name).

(** The callback of [apiGames.map]. *)
Definition to_game (game : Value) : TypeErrorKind + Game.t :=
  match read game "id" with
  | inl k => inl k
  | inr _ =>
      inr {| Game.id := prop game "id";
             Game.title := prop game "title";
             Game.description := prop game "description";
             Game.publisher_name := optional (prop game "publisher") "name";
             Game.category_name := optional (prop game "category") "name";
             Game.starRating := coalesce (prop game "starRating") VNull |}
  end.

(** [apiGames.map(...)]: only an array has a [map] that is a function. *)
Definition map_games (apiGames : Value) : TypeErrorKind + list Game.t :=
  match apiGames with
  | VArray items => all_right (map to_game items)
  | VUndefined | VNull => inl (ReadOfNullish "map")
  | _ => inl (NotAFunction "apiGames.map")
  end.

Definition set_param (name : string) (value : Value) (params : URLSearchParams.t)
  : TypeErrorKind + URLSearchParams.t :=
  match to_string value with
  | inl k => inl k
  | inr text => inr (URLSearchParams.set name text params)
  end.

(** [updateBrowserUrl]: the world it leaves, or the error it throws; it
    writes the location last, so that it throws before any write. *)
Definition updateBrowserUrl (paginationState : Value) (w : World)
  : TypeErrorKind + World :=
  match window w with
  | None => inr w
  | Some win =>
      let params := inr URLSearchParams.empty in
      let params :=
        match params with
        | inl k => inl k
        | inr ps =>
            if truthy (selectedCategoryId (vars w))
            then set_param "category_id" (selectedCategoryId (vars w)) ps
            else inr ps
        end in
      let params :=
        match params with
        | inl k => inl k
        | inr ps =>
            if truthy (selectedPublisherId (vars w))
            then set_param "publisher_id" (selectedPublisherId (vars w)) ps
            else inr ps
        end in
      let params :=
        match params with
        | inl k => inl k
        | inr ps =>
            match read paginationState "page" with
            | inl k => inl k
            | inr page =>
                match call_toString page with
                | inl k => inl k
                | inr text => inr (URLSearchParams.set "page" text ps)
                end
            end
        end in
      let params :=
        match params with
        | inl k => inl k
        | inr ps =>
            match read paginationState "per_page" with
            | inl k => inl k
            | inr per_page =>
                match call_toString per_page with
                | inl k => inl k
                | inr text => inr (URLSearchParams.set "per_page" text ps)
                end
            end
        end in
      match params with
      | inl k => inl k
      | inr ps =>
          let queryString := URLSearchParams.toString ps in
          let newUrl := with_query (Browser.pathname win) queryString in
          inr {| vars := vars w; window := Some (Browser.replaceState newUrl win) |}
      end
  end.

(** The statements of the [try] block after [response.json()], for the
    body [payload]: the world where the block ends, and the exception
    when it ends by one. *)
Definition take_in (payload : Value) (w : World) : World * option Thrown :=
  let apiGames := coalesce (optional payload "games") (VArray []) in
  let apiPagination := coalesce (optional payload "pagination") (pagination (vars w)) in
  match map_games apiGames with
  | inl k => (w, Some (type_error k))
  | inr mapped =>
      let w := with_vars (set_games mapped) w in
      let w := with_vars (set_pagination apiPagination) w in
      match read (pagination (vars w)) "page" with
      | inl k => (w, Some (type_error k))
      | inr page =>
          let w := with_vars (set_currentPage page) w in
          match read (pagination (vars w)) "per_page" with
          | inl k => (w, Some (type_error k))
          | inr per_page =>
              let w := with_vars (set_pageSize per_page) w in
              match updateBrowserUrl (pagination (vars w)) w with
              | inl k => (w, Some (type_error k))
              | inr w' => (w', None)
              end
          end
      end
  end.

Definition fetchGames_try (outcome : Outcome Value) (w : World) : World * option Thrown :=
  match outcome with
  | Rejected err => (w, Some err)
  | Resolved response =>
      if ok response then
        match body response with
        | BodyInvalid err => (w, Some err)
        | BodyJson payload => take_in payload w
        end
      else
        (with_vars (set_error ("Failed to fetch data: " ++ Number.toString (status response)
                               ++ " " ++ statusText response)) w, None)
  end.

(** [fetchGames] from the outcome of the request on. *)
Definition fetchGames_resume (outcome : Outcome Value) (w : World) : World :=
  let (w, thrown) := fetchGames_try outcome w in
  let w :=
    match thrown with
    | Some err => with_vars (set_error ("Error: " ++ thrown_text err)) w
    | None => w
    end in
  with_vars (set_loading false) w.

End Engine.

End Raw.

(** ** Vocabulary of the properties on values of any type *)

(** [payload?.games ?? []] and [payload?.pagination ?? pagination] *)
Definition api_games (payload : Raw.Value) : Raw.Value :=
  Raw.coalesce (Raw.optional payload "games") (Raw.VArray []).

Definition api_pagination (payload : Raw.Value) (w : Raw.World) : Raw.Value :=
  Raw.coalesce (Raw.optional payload "pagination") (Raw.pagination (Raw.vars w)).

(** A value that [map] goes through: an array without [null]. *)
Definition mappable (v : Raw.Value) : Prop :=
  exists items, v = Raw.VArray items /\ Forall (fun x => Raw.nullish x = false) items.

(** The variables once the games [mapped] and the metadata [pg] are
    written, before [updateBrowserUrl]. *)
Definition raw_installed (mapped : list Raw.Game.t) (pg : Raw.Value) (s : Raw.State)
  : Raw.State :=
  Raw.set_pageSize (Raw.prop pg "per_page")
    (Raw.set_currentPage (Raw.prop pg "page")
       (Raw.set_pagination pg (Raw.set_games mapped s))).


(** Messages in the style of one engine. *)
Definition sample_engine (k : Raw.TypeErrorKind) : string :=
  match k with
  | Raw.ReadOfNullish property =>
      "Cannot read properties of undefined (reading '" ++ property ++ "')"
  | Raw.NotAFunction callee => callee ++ " is not a function"
  | Raw.NoPrimitive => "Cannot convert object to primitive value"
  end.

(** Pagination metadata as the value that [response.json()] gives. *)
Definition metadata (pg : Pagination.t) : Raw.Value :=
  Raw.VObject
    [("page", Raw.VNumber (Pagination.page pg));
     ("per_page", Raw.VNumber (Pagination.per_page pg));
     ("total_items", Raw.VNumber (Pagination.total_items pg));
     ("total_pages", Raw.VNumber (Pagination.total_pages pg));
     ("has_next", Raw.VBool (Pagination.has_next pg));
     ("has_previous", Raw.VBool (Pagination.has_previous pg))].

(** A component whose variables are those of the script at its start,
    with the filters [category] and [publisher], in a window. *)
Definition raw_world (category publisher : Raw.Value) (win : Browser.Window) : Raw.World :=
  {| Raw.vars :=
       {| Raw.games := []; Raw.loading := true; Raw.error := None;
          Raw.selectedPublisherId := publisher; Raw.selectedCategoryId := category;
          Raw.pagination := metadata (pagination initial);
          Raw.currentPage := Raw.VNumber 1; Raw.pageSize := Raw.VNumber 20 |};
     Raw.window := Some win |}.

(** The variables of a component newly loaded in the window that [w]
    leaves, once it has read the location. *)
Definition read_back (w : Raw.World) : State :=
  vars (syncFiltersFromUrl {| vars := initial; window := Raw.window w; requests := [] |}).

(** A game that is already shown. *)
Definition shown_game : Raw.Game.t :=
  {| Raw.Game.id := Raw.VNumber 1; Raw.Game.title := Raw.VString "Pipeline Panic";
     Raw.Game.description := Raw.VString "Build and ship";
     Raw.Game.publisher_name := Raw.VUndefined; Raw.Game.category_name := Raw.VUndefined;
     Raw.Game.starRating := Raw.VNull |}.




(** A component that shows a game, without filter, in a window. *)
Definition showing (win : Browser.Window) : Raw.World :=
  Raw.with_vars (Raw.set_games [shown_game]) (raw_world (Raw.VString "") (Raw.VString "") win).

(** * Properties *)

Example toString_ex : Number.toString 120 = "120" /\ Number.toString (-7) = "-7" /\ Number.toString 0 = "0".
Proof. repeat split; reflexivity. Qed.

Example parseInt_ex :
  Number.parseInt " 12abc" = Some 12 /\ Number.parseInt "abc" = None
  /\ Number.parseInt "-3" = Some (-3) /\ Number.parseInt "" = None
  /\ Number.parseInt "+" = None /\ Number.parseInt "007" = Some 7.
Proof. repeat split; reflexivity. Qed.

Example urlsearchparams_ex :
  URLSearchParams.toString [("category_id", "a b&c"); ("page", "2")] = "category_id=a+b%26c&page=2"
  /\ URLSearchParams.parse "?category_id=a+b%26c&page=2&&x" = [("category_id", "a b&c"); ("page", "2"); ("x", "")]
  /\ URLSearchParams.parse "" = [] /\ URLSearchParams.parse "?a=%zz%4" = [("a", "%zz%4")].
Proof. repeat split; reflexivity. Qed.

Example browser_ex :
  Browser.search {| Browser.href := "/games?page=2#top" |} = "?page=2"
  /\ Browser.pathname {| Browser.href := "/games?page=2#top" |} = "/games"
  /\ Browser.search {| Browser.href := "/games?" |} = "".
Proof. repeat split; reflexivity. Qed.

Example paginationItems_ex (s : State) :
  pagination s = {| Pagination.page := 5; Pagination.per_page := 20;
                    Pagination.total_items := 200; Pagination.total_pages := 10;
                    Pagination.has_next := true; Pagination.has_previous := true |} ->
  paginationItems s
  = [PageNum 1; Ellipsis; PageNum 3; PageNum 4; PageNum 5; PageNum 6; PageNum 7;
     Ellipsis; PageNum 10].
Proof. intros E. unfold paginationItems. rewrite E. reflexivity. Qed.

Example computeWindow_ex :
  computeWindow 1 10 2 = [PageNum 1; PageNum 2; PageNum 3; Ellipsis; PageNum 10]
  /\ computeWindow 5 10 2
     = [PageNum 1; Ellipsis; PageNum 3; PageNum 4; PageNum 5; PageNum 6; PageNum 7;
        Ellipsis; PageNum 10]
  /\ computeWindow 3 6 2 = map PageNum [1; 2; 3; 4; 5; 6].
Proof. repeat split; reflexivity. Qed.

Example showing_ex :
  showingStart (set_pagination (page_of 3 20 95 5) initial) = 41
  /\ showingEnd (set_pagination (page_of 3 20 95 5) initial) = 60
  /\ showingStart initial = 0 /\ showingEnd initial = 0
  /\ showingEnd (set_pagination (page_of 5 20 95 5) initial) = 95.
Proof. repeat split; reflexivity. Qed.

Example fetchGames_ex :
  requests (mounted {| Browser.href := "/games?publisher_id=7&page=2" |})
  = ["/api/publishers"; "/api/categories"; "/api/games?publisher_id=7&page=2&per_page=20"]
  /\ view (vars (fetchGames_resume (json_ok (Some {| Payload.games := None;
                                                     Payload.pagination := None |}))
                                   (mounted {| Browser.href := "/games" |})))
     = ViewEmpty.
Proof. split; reflexivity. Qed.

(** ** The pagination window *)

Lemma Zrange_In (lo hi x : Z) : In x (Zrange lo hi) <-> lo <= x <= hi.
Proof.
  unfold Zrange. rewrite in_map_iff. split.
  - intros (k & <- & Hk). apply in_seq in Hk. lia.
  - intros H. exists (Z.to_nat (x - lo)). split; [lia |]. apply in_seq. lia.
Qed.

Lemma Zrange_empty (lo hi : Z) : hi < lo -> Zrange lo hi = [].
Proof.
  intros H. unfold Zrange. replace (Z.to_nat (hi + 1 - lo)) with 0%nat by lia. reflexivity.
Qed.

Lemma Zrange_cons (lo hi : Z) : lo <= hi -> Zrange lo hi = lo :: Zrange (lo + 1) hi.
Proof.
  intros H. unfold Zrange.
  replace (Z.to_nat (hi + 1 - lo)) with (S (Z.to_nat (hi + 1 - (lo + 1)))) by lia.
  cbn [seq map]. f_equal; [lia |].
  rewrite <- seq_shift, map_map. apply map_ext. intros k. lia.
Qed.


Lemma push_pages_spec (i hi : Z) (items : list PageItem) :
  push_pages i hi items = (items ++ map PageNum (Zrange i hi))%list.
Proof.
  funelim (push_pages i hi items).
  - match goal with IH : push_pages _ _ _ = (_ ++ _)%list |- _ => rewrite IH end.
    rewrite (Zrange_cons i hi) by lia. cbn [map]. rewrite <- app_assoc. reflexivity.
  - rewrite Zrange_empty by lia. cbn [map]. rewrite app_nil_r. reflexivity.
Qed.

Lemma page_numbers_app (a b : list PageItem) :
  page_numbers (a ++ b) = (page_numbers a ++ page_numbers b)%list.
Proof.
  induction a as [| [n |] a IH]; cbn [app page_numbers]; rewrite ?IH; reflexivity.
Qed.

Lemma page_numbers_map (l : list Z) : page_numbers (map PageNum l) = l.
Proof. induction l as [| n l IH]; cbn [map page_numbers]; rewrite ?IH; reflexivity. Qed.



Lemma paginationItems_computeWindow (s : State) :
  paginationItems s
  = computeWindow (Pagination.page (pagination s)) (Pagination.total_pages (pagination s)) 2.
Proof.
  unfold paginationItems, computeWindow.
  destruct (Pagination.total_pages (pagination s) <=? 7).
  - unfold Array_from, Zrange.
    replace (Pagination.total_pages (pagination s) + 1 - 1)
      with (Pagination.total_pages (pagination s)) by lia.
    rewrite map_map. apply map_ext. intros k. f_equal. lia.
  - rewrite push_pages_spec.
    destruct (_ >? _), (_ <? _); cbn [app]; rewrite <- ?app_assoc; reflexivity.
Qed.




(** ** Text: numbers *)

Lemma digit_char_value (d : Z) :
  0 <= d < 10 ->
  Number.is_digit (Number.digit_char d) = true
  /\ Number.digit_value (Number.digit_char d) = d.
Proof.
  intros H.
  assert (E : d = 0 \/ d = 1 \/ d = 2 \/ d = 3 \/ d = 4 \/ d = 5 \/ d = 6 \/ d = 7
              \/ d = 8 \/ d = 9) by lia.
  repeat (destruct E as [-> | E]; [split; reflexivity |]). subst d. split; reflexivity.
Qed.

Lemma read_digits_digits (n : Z) (acc : string) :
  0 <= n ->
  exists k, 0 <= k /\
    forall a, Number.read_digits (Number.digits n acc) a
              = Number.read_digits acc (a * 10 ^ k + n).
Proof.
  funelim (Number.digits n acc); intros Hn.
  - exists 1. split; [lia |]. intros a. cbn [Number.read_digits].
    destruct (digit_char_value n) as [-> ->]; [lia |]. f_equal. lia.
  - match goal with IH : 0 <= _ -> exists _, _ |- _ => destruct IH as (k & Hk & R) end.
    { apply Z.div_pos; lia. }
    exists (k + 1). split; [lia |]. intros a.
    rewrite R. cbn [Number.read_digits].
    destruct (digit_char_value (n mod 10)) as [-> ->]; [apply Z.mod_pos_bound; lia |].
    f_equal. rewrite Z.pow_add_r by lia. pose proof (Z.div_mod n 10). lia.
Qed.

Lemma digits_head (n : Z) (acc : string) :
  0 <= n -> exists c r, Number.digits n acc = String c r /\ Number.is_digit c = true.
Proof.
  funelim (Number.digits n acc); intros Hn.
  - exists (Number.digit_char n), acc. split; [reflexivity |]. apply digit_char_value. lia.
  - match goal with IH : 0 <= _ -> exists _ _, _ |- _ => apply IH end.
    apply Z.div_pos; lia.
Qed.

Lemma is_digit_not_space (c : ascii) :
  Number.is_digit c = true ->
  Number.is_space1 c = false
  /\ (forall c2, Number.is_space2 c c2 = false)
  /\ (forall c2 c3, Number.is_space3 c c2 c3 = false)
  /\ c <> "-"%char /\ c <> "+"%char.
Proof.
  destruct c as [[] [] [] [] [] [] [] []]; intros H; try discriminate H;
    (split; [reflexivity |]; split; [intros; reflexivity |];
     split; [intros; reflexivity |]; split; discriminate).
Qed.

Lemma trimStart_digit (c : ascii) (r : string) :
  Number.is_digit c = true -> Number.trimStart (String c r) = String c r.
Proof.
  intros H. destruct (is_digit_not_space c H) as (H1 & H2 & H3 & _).
  cbn [Number.trimStart]. rewrite H1.
  destruct r as [| c2 r]; [reflexivity |]. rewrite H2.
  destruct r as [| c3 r]; [reflexivity |]. rewrite H3. reflexivity.
Qed.

Lemma parse_unsigned_digits (n : Z) :
  0 <= n -> Number.parse_unsigned (Number.digits n "") = Some n.
Proof.
  intros Hn. destruct (digits_head n "" Hn) as (c & r & E & Hc).
  destruct (read_digits_digits n "" Hn) as (k & _ & R).
  unfold Number.parse_unsigned. rewrite R. rewrite E. cbn [Number.starts_with_digit].
  rewrite Hc. cbn [Number.read_digits]. f_equal; lia.
Qed.

Lemma parseInt_unsigned (c : ascii) (r : string) :
  Number.is_digit c = true ->
  Number.parseInt (String c r) = Number.parse_unsigned (String c r).
Proof.
  intros Hc. unfold Number.parseInt. rewrite (trimStart_digit c r Hc).
  destruct c as [[] [] [] [] [] [] [] []]; try discriminate Hc; reflexivity.
Qed.

Lemma parseInt_minus (c : ascii) (r : string) :
  Number.is_digit c = true ->
  Number.parseInt (String "-" (String c r))
  = option_map Z.opp (Number.parse_unsigned (String c r)).
Proof.
  intros Hc. destruct (is_digit_not_space c Hc) as (_ & _ & _ & _).
  assert (T : Number.trimStart (String "-" (String c r)) = String "-" (String c r)).
  { destruct c as [[] [] [] [] [] [] [] []]; try discriminate Hc; destruct r; reflexivity. }
  unfold Number.parseInt. rewrite T. reflexivity.
Qed.

Lemma parseInt_toString (n : Z) : Number.parseInt (Number.toString n) = Some n.
Proof.
  unfold Number.toString. destruct (n <? 0) eqn:E.
  - apply Z.ltb_lt in E.
    destruct (digits_head (- n) "") as (c & r & Ed & Hc); [lia |].
    pose proof (parse_unsigned_digits (- n) ltac:(lia)) as P.
    rewrite Ed in *. rewrite (parseInt_minus c r Hc), P. cbn [option_map]. f_equal. lia.
  - apply Z.ltb_ge in E.
    destruct (digits_head n "" E) as (c & r & Ed & Hc).
    pose proof (parse_unsigned_digits n E) as P.
    rewrite Ed in *. rewrite (parseInt_unsigned c r Hc). exact P.
Qed.

(** ** Text: the serializer and the parser of [URLSearchParams] *)

Ltac each_byte c := destruct c as [[] [] [] [] [] [] [] []].

Lemma decode_encode_byte (c : ascii) (rest : string) :
  URLSearchParams.decode (URLSearchParams.encode_byte c ++ rest)
  = String c (URLSearchParams.decode rest).
Proof. each_byte c; reflexivity. Qed.

Lemma decode_urlencode (s : string) :
  URLSearchParams.decode (URLSearchParams.urlencode s) = s.
Proof.
  induction s as [| c r IH]; [reflexivity |].
  cbn [URLSearchParams.urlencode]. rewrite decode_encode_byte, IH. reflexivity.
Qed.

Lemma string_forall_app (P : ascii -> bool) (a b : string) :
  string_forall P (a ++ b) = string_forall P a && string_forall P b.
Proof.
  induction a as [| c a IH]; [reflexivity |].
  cbn [append string_forall]. rewrite IH, andb_assoc. reflexivity.
Qed.

Lemma string_forall_impl (P Q : ascii -> bool) (s : string) :
  (forall c, P c = true -> Q c = true) ->
  string_forall P s = true -> string_forall Q s = true.
Proof.
  intros H. induction s as [| c r IH]; [reflexivity |].
  cbn [string_forall]. rewrite !andb_true_iff. intros [Hc Hr]. auto.
Qed.

Lemma encode_byte_chars (c : ascii) :
  string_forall encoded_char (URLSearchParams.encode_byte c) = true.
Proof. each_byte c; reflexivity. Qed.

Lemma urlencode_chars (s : string) :
  string_forall encoded_char (URLSearchParams.urlencode s) = true.
Proof.
  induction s as [| c r IH]; [reflexivity |].
  cbn [URLSearchParams.urlencode]. rewrite string_forall_app, encode_byte_chars, IH.
  reflexivity.
Qed.

Lemma encoded_char_plain (c : ascii) :
  encoded_char c = true ->
  is_not "&" c = true /\ is_not "=" c = true /\ is_not "#" c = true /\ is_not "?" c = true.
Proof. each_byte c; intros H; try discriminate H; repeat split. Qed.

Lemma urlencode_is_not (sep : ascii) (s : string) :
  sep = "&"%char \/ sep = "="%char \/ sep = "#"%char \/ sep = "?"%char ->
  string_forall (is_not sep) (URLSearchParams.urlencode s) = true.
Proof.
  intros H. apply (string_forall_impl encoded_char); [| apply urlencode_chars].
  intros c Hc. destruct (encoded_char_plain c Hc) as (H1 & H2 & H3 & H4).
  destruct H as [-> | [-> | [-> | ->]]]; assumption.
Qed.

Lemma split_last (sep : ascii) (a : string) :
  string_forall (is_not sep) a = true -> URLSearchParams.split sep a = [a].
Proof.
  induction a as [| c a IH]; [reflexivity |].
  cbn [string_forall URLSearchParams.split]. unfold is_not at 1.
  rewrite andb_true_iff, negb_true_iff. intros [-> Ha]. rewrite (IH Ha). reflexivity.
Qed.

Lemma split_app (sep : ascii) (a rest : string) :
  string_forall (is_not sep) a = true ->
  URLSearchParams.split sep (a ++ String sep rest) = a :: URLSearchParams.split sep rest.
Proof.
  induction a as [| c a IH].
  - intros _. cbn [append URLSearchParams.split]. rewrite Ascii.eqb_refl. reflexivity.
  - cbn [string_forall append URLSearchParams.split]. unfold is_not at 1.
    rewrite andb_true_iff, negb_true_iff. intros [-> Ha]. rewrite (IH Ha). reflexivity.
Qed.

Lemma name_value_app (n v : string) :
  string_forall (is_not "=") n = true ->
  URLSearchParams.name_value (n ++ String "=" v) = (n, v).
Proof.
  induction n as [| c n IH].
  - intros _. reflexivity.
  - cbn [string_forall append URLSearchParams.name_value]. unfold is_not at 1.
    rewrite andb_true_iff, negb_true_iff. intros [-> Hn]. rewrite (IH Hn). reflexivity.
Qed.

Lemma encode_pair_is_not (sep : ascii) (p : string * string) :
  sep = "&"%char \/ sep = "#"%char \/ sep = "?"%char ->
  string_forall (is_not sep) (URLSearchParams.encode_pair p) = true.
Proof.
  intros H. unfold URLSearchParams.encode_pair.
  rewrite !string_forall_app, !urlencode_is_not by intuition.
  destruct H as [-> | [-> | ->]]; reflexivity.
Qed.

Lemma toString_cons (p q : string * string) (r : URLSearchParams.t) :
  URLSearchParams.toString (p :: q :: r)
  = URLSearchParams.encode_pair p ++ String "&" (URLSearchParams.toString (q :: r)).
Proof. reflexivity. Qed.

Lemma toString_is_not (sep : ascii) (l : URLSearchParams.t) :
  sep = "#"%char \/ sep = "?"%char ->
  string_forall (is_not sep) (URLSearchParams.toString l) = true.
Proof.
  intros H. induction l as [| p [| q r] IH]; [reflexivity | |].
  - apply encode_pair_is_not. intuition.
  - rewrite toString_cons, string_forall_app, encode_pair_is_not by intuition.
    cbn [string_forall andb]. rewrite IH. destruct H as [-> | ->]; reflexivity.
Qed.

Lemma split_toString (l : URLSearchParams.t) :
  l <> [] ->
  URLSearchParams.split "&" (URLSearchParams.toString l) = map URLSearchParams.encode_pair l.
Proof.
  induction l as [| p [| q r] IH]; intros Hl; [contradiction | |].
  - apply split_last, encode_pair_is_not. auto.
  - rewrite toString_cons, split_app by (apply encode_pair_is_not; auto).
    rewrite IH by discriminate. reflexivity.
Qed.

Lemma parse_encode_pairs (l : URLSearchParams.t) :
  URLSearchParams.parse_sequences (map URLSearchParams.encode_pair l) = l.
Proof.
  unfold URLSearchParams.parse_sequences.
  induction l as [| [n v] l IH]; [reflexivity |].
  cbn [map filter].
  assert (E : URLSearchParams.is_empty (URLSearchParams.encode_pair (n, v)) = false).
  { unfold URLSearchParams.encode_pair. cbn [fst snd].
    destruct (URLSearchParams.urlencode n); reflexivity. }
  rewrite E. cbn [negb map]. rewrite IH. f_equal.
  unfold URLSearchParams.encode_pair. cbn [fst snd].
  change ("=" ++ URLSearchParams.urlencode v) with (String "=" (URLSearchParams.urlencode v)).
  rewrite name_value_app by (apply urlencode_is_not; auto).
  rewrite !decode_urlencode. reflexivity.
Qed.

(** Parsing what the serializer wrote gives the pairs back. *)
Lemma parse_toString (l : URLSearchParams.t) :
  URLSearchParams.parse (String "?" (URLSearchParams.toString l)) = l.
Proof.
  unfold URLSearchParams.parse. destruct l as [| p l]; [reflexivity |].
  rewrite split_toString by discriminate. apply parse_encode_pairs.
Qed.

(** ** The location *)

Lemma path_of_plain (u : string) :
  string_forall (fun c => negb (Browser.is_delim c)) (Browser.path_of u) = true.
Proof.
  induction u as [| c u IH]; [reflexivity |].
  cbn [Browser.path_of]. destruct (Browser.is_delim c) eqn:E; [reflexivity |].
  cbn [string_forall]. rewrite E, IH. reflexivity.
Qed.

Lemma after_path_app (p q : string) :
  string_forall (fun c => negb (Browser.is_delim c)) p = true ->
  Browser.after_path (p ++ String "?" q) = String "?" q.
Proof.
  induction p as [| c p IH]; [reflexivity |].
  cbn [string_forall append Browser.after_path].
  rewrite andb_true_iff, negb_true_iff. intros [-> Hp]. exact (IH Hp).
Qed.

Lemma until_hash_plain (q : string) :
  string_forall (is_not "#") q = true -> Browser.until_hash q = q.
Proof.
  induction q as [| c q IH]; [reflexivity |].
  cbn [string_forall Browser.until_hash]. unfold is_not at 1.
  rewrite andb_true_iff, negb_true_iff. intros [-> Hq]. rewrite (IH Hq). reflexivity.
Qed.

Lemma toString_head (l : URLSearchParams.t) :
  l <> [] -> exists c r, URLSearchParams.toString l = String c r.
Proof.
  intros Hl. destruct l as [| [n v] [| q r]]; [contradiction | |].
  - unfold URLSearchParams.toString, URLSearchParams.encode_pair. cbn [fst snd].
    destruct (URLSearchParams.urlencode n); cbn [append]; eauto.
  - rewrite toString_cons. unfold URLSearchParams.encode_pair. cbn [fst snd].
    destruct (URLSearchParams.urlencode n); cbn [append]; eauto.
Qed.

(** The query string appended to a path is the one that [location.search]
    reads from the URL. *)
Lemma search_with_query (prefix : string) (l : URLSearchParams.t) :
  string_forall (fun c => negb (Browser.is_delim c)) prefix = true ->
  l <> [] ->
  Browser.search {| Browser.href := with_query prefix (URLSearchParams.toString l) |}
  = String "?" (URLSearchParams.toString l).
Proof.
  intros Hp Hl. destruct (toString_head l Hl) as (c & r & Eq).
  pose proof (toString_is_not "#" l (or_introl eq_refl)) as Hh.
  unfold Browser.search, with_query. cbn [Browser.href].
  rewrite Eq in *. cbn [truthy URLSearchParams.is_empty negb].
  change ("?" ++ String c r) with (String "?" (String c r)).
  rewrite after_path_app by exact Hp.
  rewrite until_hash_plain by exact Hh. reflexivity.
Qed.

Lemma search_replaceState (win : Browser.Window) (l : URLSearchParams.t) :
  l <> [] ->
  Browser.search
    (Browser.replaceState (with_query (Browser.pathname win) (URLSearchParams.toString l)) win)
  = String "?" (URLSearchParams.toString l).
Proof. intros Hl. apply search_with_query; [apply path_of_plain | exact Hl]. Qed.

Lemma query_of_with_query (prefix : string) (l : URLSearchParams.t) :
  string_forall (fun c => negb (Browser.is_delim c)) prefix = true ->
  l <> [] ->
  query_of (with_query prefix (URLSearchParams.toString l)) = l.
Proof.
  intros Hp Hl. unfold query_of. rewrite search_with_query by assumption.
  apply parse_toString.
Qed.

(** ** Writing the location and reading it back *)

Lemma updateBrowserUrl_window (paginationState : Pagination.t) (w : World) (win : Browser.Window) :
  window w = Some win ->
  updateBrowserUrl paginationState w
  = with_window
      (Browser.replaceState
         (with_query (Browser.pathname win)
                     (URLSearchParams.toString (written_pairs (vars w) paginationState)))
         win) w.
Proof.
  intros Hw. unfold updateBrowserUrl, written_pairs. rewrite Hw.
  destruct (truthy (selectedCategoryId (vars w))), (truthy (selectedPublisherId (vars w)));
    reflexivity.
Qed.

Lemma updateBrowserUrl_vars (paginationState : Pagination.t) (w : World) :
  vars (updateBrowserUrl paginationState w) = vars w
  /\ requests (updateBrowserUrl paginationState w) = requests w.
Proof. unfold updateBrowserUrl. destruct (window w); split; reflexivity. Qed.

Lemma written_pairs_not_nil (s : State) (paginationState : Pagination.t) :
  written_pairs s paginationState <> [].
Proof.
  unfold written_pairs.
  destruct (truthy (selectedCategoryId s)), (truthy (selectedPublisherId s)); discriminate.
Qed.

Lemma truthy_toString (n : Z) : truthy (Number.toString n) = true.
Proof.
  unfold Number.toString. destruct (n <? 0) eqn:E; [reflexivity |].
  apply Z.ltb_ge in E. destruct (digits_head n "" E) as (c & r & -> & _). reflexivity.
Qed.

Lemma truthy_false (v : string) : truthy v = false -> v = "".
Proof. destruct v; [reflexivity | discriminate]. Qed.

Lemma written_pairs_get (s : State) (paginationState : Pagination.t) :
  let l := written_pairs s paginationState in
  match URLSearchParams.get "category_id" l with Some v => v | None => "" end
  = selectedCategoryId s
  /\ match URLSearchParams.get "publisher_id" l with Some v => v | None => "" end
     = selectedPublisherId s
  /\ URLSearchParams.get "page" l = Some (Number.toString (Pagination.page paginationState))
  /\ URLSearchParams.get "per_page" l
     = Some (Number.toString (Pagination.per_page paginationState)).
Proof.
  unfold written_pairs.
  destruct (truthy (selectedCategoryId s)) eqn:Ec, (truthy (selectedPublisherId s)) eqn:Ep;
    try apply truthy_false in Ec; try apply truthy_false in Ep;
    cbn; rewrite ?Ec, ?Ep; repeat split; reflexivity.
Qed.

(** C3, amended.  Writing a filter selection whose identifiers are
    strings and a pagination state whose page is at least 1 and at most
    [MAX_SAFE_INTEGER] and whose page size is one of 10, 20 and 50 to the
    location of a browser window, then reading the location back in a
    newly loaded component, gives the same filter selection, that page
    and that page size. *)
Theorem url_round_trip (w : World) (win : Browser.Window) (p : Pagination.t) (s0 : State) :
  window w = Some win ->
  1 <= Pagination.page p <= MAX_SAFE_INTEGER ->
  In (Pagination.per_page p) pageSizeOptions ->
  selectedCategoryId (vars (syncFiltersFromUrl (reload s0 (updateBrowserUrl p w))))
  = selectedCategoryId (vars w)
  /\ selectedPublisherId (vars (syncFiltersFromUrl (reload s0 (updateBrowserUrl p w))))
     = selectedPublisherId (vars w)
  /\ currentPage (vars (syncFiltersFromUrl (reload s0 (updateBrowserUrl p w))))
     = Pagination.page p
  /\ pageSize (vars (syncFiltersFromUrl (reload s0 (updateBrowserUrl p w))))
     = Pagination.per_page p.
Proof.
  intros Hw Hpage Hsize.
  rewrite (updateBrowserUrl_window p w win Hw).
  unfold syncFiltersFromUrl, reload, with_window. cbn [window].
  rewrite search_replaceState by apply written_pairs_not_nil.
  rewrite parse_toString.
  destruct (written_pairs_get (vars w) p) as (Gc & Gp & Gpage & Gsize).
  cbv zeta in Gc, Gp, Gpage, Gsize. rewrite Gc, Gp, Gpage, Gsize.
  rewrite !truthy_toString, !parseInt_toString.
  assert (E1 : (Pagination.page p <? 1) = false) by (apply Z.ltb_ge; lia).
  assert (E2 : existsb (Z.eqb (Pagination.per_page p)) pageSizeOptions = true).
  { apply existsb_exists. exists (Pagination.per_page p). split; [exact Hsize | apply Z.eqb_refl]. }
  rewrite E1, E2. repeat split; reflexivity.
Qed.

Lemma url_round_trip_witness :
  (window (with_vars (set_selectedCategoryId "3 & up") (mounting {| Browser.href := "/games?page=9#top" |}))
   = Some {| Browser.href := "/games?page=9#top" |}
   /\ 1 <= Pagination.page (page_of 4 50 420 9) <= MAX_SAFE_INTEGER
   /\ In (Pagination.per_page (page_of 4 50 420 9)) pageSizeOptions)
  /\ selectedCategoryId
       (vars (syncFiltersFromUrl
                (reload initial
                   (updateBrowserUrl (page_of 4 50 420 9)
                      (with_vars (set_selectedCategoryId "3 & up")
                                 (mounting {| Browser.href := "/games?page=9#top" |}))))))
     = "3 & up"
  /\ currentPage
       (vars (syncFiltersFromUrl
                (reload initial
                   (updateBrowserUrl (page_of 4 50 420 9)
                      (with_vars (set_selectedCategoryId "3 & up")
                                 (mounting {| Browser.href := "/games?page=9#top" |}))))))
     = 4
  /\ pageSize
       (vars (syncFiltersFromUrl
                (reload initial
                   (updateBrowserUrl (page_of 4 50 420 9)
                      (with_vars (set_selectedCategoryId "3 & up")
                                 (mounting {| Browser.href := "/games?page=9#top" |}))))))
     = 50.
Proof.
  split; [split; [reflexivity | split; [cbn; unfold MAX_SAFE_INTEGER; lia | cbn; auto]] |].
  destruct (url_round_trip
              (with_vars (set_selectedCategoryId "3 & up")
                         (mounting {| Browser.href := "/games?page=9#top" |}))
              {| Browser.href := "/games?page=9#top" |} (page_of 4 50 420 9) initial)
    as (Hc & _ & Hp & Hs); [reflexivity | cbn; unfold MAX_SAFE_INTEGER; lia | cbn; auto |].
  split; [exact Hc |]. split; [exact Hp | exact Hs].
Defined.

Example updateBrowserUrl_ex :
  window (updateBrowserUrl (page_of 4 50 420 9)
            (with_vars (set_selectedCategoryId "3 & up")
                       (mounting {| Browser.href := "/games?page=9#top" |})))
  = Some {| Browser.href := "/games?category_id=3+%26+up&page=4&per_page=50" |}.
Proof. reflexivity. Qed.

(** ** Failing fetches *)

Lemma append_assoc (a b c : string) : (a ++ b) ++ c = a ++ b ++ c.
Proof. induction a as [| x a IH]; [reflexivity |]. cbn [append]. rewrite IH. reflexivity. Qed.

Lemma append_nil_r (a : string) : a ++ "" = a.
Proof. induction a as [| x a IH]; [reflexivity |]. cbn [append]. rewrite IH. reflexivity. Qed.

Lemma fetchGames_resume_failed (outcome : Outcome (option Payload.t)) (w : World) :
  failed outcome = true ->
  fetchGames_resume outcome w
  = with_vars (set_loading false) (with_vars (set_error (failure_message outcome)) w).
Proof.
  unfold failed, fetchGames_resume, fetchGames_try, failure_message.
  destruct outcome as [err | response]; [reflexivity |].
  destruct (ok response); [| reflexivity].
  destruct (body response); [reflexivity | discriminate].
Qed.

Lemma failure_message_truthy {A} (outcome : Outcome A) :
  failed outcome = true -> truthy (failure_message outcome) = true.
Proof.
  unfold failed, failure_message.
  destruct outcome as [err | response]; [reflexivity |].
  destruct (ok response); [| reflexivity].
  destruct (body response); [reflexivity | discriminate].
Qed.

(** C4. A fetch that receives a response whose status is not in the range
    200-299 ends with the loading flag off and the error message
    ["Failed to fetch data: <status> <statusText>"], which contains the
    status code and the status text; the games are not written, and the
    template shows the error, not the list. *)
Theorem non_2xx_is_failure (response : Response (option Payload.t)) (w : World) :
  ok response = false ->
  error (vars (fetchGames (Resolved response) w))
  = Some ("Failed to fetch data: " ++ Number.toString (status response)
          ++ " " ++ statusText response)
  /\ contains ("Failed to fetch data: " ++ Number.toString (status response)
               ++ " " ++ statusText response)
              (Number.toString (status response))
  /\ contains ("Failed to fetch data: " ++ Number.toString (status response)
               ++ " " ++ statusText response)
              (statusText response)
  /\ loading (vars (fetchGames (Resolved response) w)) = false
  /\ games (vars (fetchGames (Resolved response) w)) = games (vars w)
  /\ view (vars (fetchGames (Resolved response) w))
     = ViewError ("Failed to fetch data: " ++ Number.toString (status response)
                  ++ " " ++ statusText response).
Proof.
  intros Hok. unfold fetchGames.
  rewrite fetchGames_resume_failed by (unfold failed; rewrite Hok; reflexivity).
  unfold failure_message. rewrite Hok. split; [reflexivity |]. split.
  { exists "Failed to fetch data: ", (" " ++ statusText response). reflexivity. }
  split.
  { exists ("Failed to fetch data: " ++ Number.toString (status response) ++ " "), "".
    rewrite append_nil_r, !append_assoc. reflexivity. }
  repeat split; reflexivity.
Qed.

Lemma non_2xx_is_failure_witness :
  error (vars (fetchGames (http_error 503 "Service Unavailable") (mounting {| Browser.href := "/" |})))
  = Some "Failed to fetch data: 503 Service Unavailable"
  /\ view (vars (fetchGames (http_error 503 "Service Unavailable")
                            (mounting {| Browser.href := "/" |})))
     = ViewError "Failed to fetch data: 503 Service Unavailable".
Proof.
  pose proof (non_2xx_is_failure
                {| status := 503; statusText := "Service Unavailable";
                   body := BodyInvalid (ThrownError "Unexpected token < in JSON") |}
                (mounting {| Browser.href := "/" |}) eq_refl) as (He & _ & _ & _ & _ & Hv).
  split; [exact He | exact Hv].
Defined.

(** A fetch that fails, by a status out of the range 200-299 or by an
    exception of [fetch] or of [response.json()], changes
    [error] and [loading] only: the games, the pagination, the current
    page, the page size, the filters and the reference data keep their
    values, and the location is not written. *)
Theorem failed_fetch_frame (outcome : Outcome (option Payload.t)) (w : World) :
  failed outcome = true ->
  same_data (vars w) (vars (fetchGames outcome w))
  /\ window (fetchGames outcome w) = window w
  /\ error (vars (fetchGames outcome w)) = Some (failure_message outcome)
  /\ loading (vars (fetchGames outcome w)) = false
  /\ same_data (vars w) (vars (fetchGames_resume outcome w))
  /\ window (fetchGames_resume outcome w) = window w.
Proof.
  intros Hf. unfold fetchGames. rewrite !fetchGames_resume_failed by exact Hf.
  unfold same_data. repeat split; reflexivity.
Qed.

Lemma failed_fetch_frame_witness :
  same_data (vars (mounting {| Browser.href := "/?page=3" |}))
            (vars (fetchGames (Rejected (ThrownError "Failed to fetch"))
                              (mounting {| Browser.href := "/?page=3" |})))
  /\ window (fetchGames (Rejected (ThrownError "Failed to fetch"))
                        (mounting {| Browser.href := "/?page=3" |}))
     = Some {| Browser.href := "/?page=3" |}.
Proof.
  pose proof (failed_fetch_frame (Rejected (ThrownError "Failed to fetch"))
                (mounting {| Browser.href := "/?page=3" |}) eq_refl) as (Hd & Hw & _).
  split; [exact Hd | exact Hw].
Defined.

Lemma fetchGames_resume_json (response : Response (option Payload.t))
      (payload : option Payload.t) (w : World) :
  ok response = true ->
  body response = BodyJson payload ->
  fetchGames_resume (Resolved response) w
  = with_vars (set_loading false)
      (updateBrowserUrl (payload_pagination payload (pagination (vars w)))
                        (with_vars (installed payload) w)).
Proof.
  intros Hok Hb. unfold fetchGames_resume, fetchGames_try. rewrite Hok, Hb. reflexivity.
Qed.

(** ** Bodies of successful responses *)

(** C1, counterexample.  A body lacking [games] or [pagination] is not a
    failure: after the body [{}] the value of [error] is still null. *)
Lemma lacking_fields_not_failure :
  ~ (forall (w : World) (response : Response (option Payload.t)) (payload : option Payload.t),
        ok response = true ->
        body response = BodyJson payload ->
        lacks_fields payload ->
        exists message, error (vars (fetchGames (Resolved response) w)) = Some message).
Proof.
  intros H.
  destruct (H (mounting {| Browser.href := "/" |})
              {| status := 200; statusText := "OK";
                 body := BodyJson (Some {| Payload.games := None; Payload.pagination := None |}) |}
              (Some {| Payload.games := None; Payload.pagination := None |})
              eq_refl eq_refl (or_introl eq_refl)) as [message Hm].
  discriminate Hm.
Qed.

(** ** Successful fetches *)

Lemma games_url_pairs (s : State) :
  games_url s = with_query "/api/games" (URLSearchParams.toString (request_pairs s)).
Proof.
  unfold games_url, request_pairs.
  destruct (truthy (selectedPublisherId s)), (truthy (selectedCategoryId s)); reflexivity.
Qed.

Lemma request_pairs_not_nil (s : State) : request_pairs s <> [].
Proof.
  unfold request_pairs.
  destruct (truthy (selectedPublisherId s)), (truthy (selectedCategoryId s)); discriminate.
Qed.

Lemma query_of_games_url (s : State) : query_of (games_url s) = request_pairs s.
Proof.
  rewrite games_url_pairs.
  apply query_of_with_query; [reflexivity | apply request_pairs_not_nil].
Qed.

Lemma step_keeps_location_and_pagination (w : World) (e : Event) :
  (forall outcome, e <> GamesArrive outcome) ->
  window (step w e) = window w /\ pagination (vars (step w e)) = pagination (vars w).
Proof.
  intros He. destruct e as [v | v | | page | size | o | o | o]; cbn [step].
  1-3, 5: split; reflexivity.
  - unfold changePage. destruct (_ && _); split; reflexivity.
  - exfalso. exact (He o eq_refl).
  - unfold fetchPublishers_resume. destruct o as [| r]; [split; reflexivity |].
    destruct (ok r); [| split; reflexivity]. destruct (body r); split; reflexivity.
  - unfold fetchCategories_resume. destruct o as [| r]; [split; reflexivity |].
    destruct (ok r); [| split; reflexivity]. destruct (body r); split; reflexivity.
Qed.



(** ** Handlers *)

(** C6. [changePage requested] does nothing, and issues no request, when
    [requested] is the current page or lies outside [[1, total_pages]];
    otherwise it writes the current page, issues the request for that
    page, and leaves every other variable but the loading flag that the
    fetch raises, the filters and the page size among them. *)
Theorem changePage_guard (requested : Z) (w : World) :
  (requested = currentPage (vars w) \/ requested < 1
   \/ Pagination.total_pages (pagination (vars w)) < requested ->
   changePage requested w = w)
  /\ (requested <> currentPage (vars w) ->
      1 <= requested <= Pagination.total_pages (pagination (vars w)) ->
      vars (changePage requested w) = set_loading true (set_currentPage requested (vars w))
      /\ currentPage (vars (changePage requested w)) = requested
      /\ requests (changePage requested w)
         = (requests w ++ [games_url (vars (changePage requested w))])%list
      /\ URLSearchParams.get "page" (query_of (games_url (vars (changePage requested w))))
         = Some (Number.toString requested)
      /\ selectedCategoryId (vars (changePage requested w)) = selectedCategoryId (vars w)
      /\ selectedPublisherId (vars (changePage requested w)) = selectedPublisherId (vars w)
      /\ pageSize (vars (changePage requested w)) = pageSize (vars w)
      /\ window (changePage requested w) = window w).
Proof.
  unfold changePage. split.
  - intros H.
    assert (E : negb (requested =? currentPage (vars w)) && (1 <=? requested)
                && (requested <=? Pagination.total_pages (pagination (vars w))) = false).
    { destruct H as [-> | [H | H]].
      - rewrite Z.eqb_refl. reflexivity.
      - apply Z.leb_gt in H. rewrite H, andb_false_r. reflexivity.
      - apply Z.leb_gt in H. rewrite H, andb_false_r. reflexivity. }
    rewrite E. reflexivity.
  - intros Hne [H1 H2].
    apply Z.eqb_neq in Hne. apply Z.leb_le in H1, H2. rewrite Hne, H1, H2. cbn [negb andb].
    split; [reflexivity |]. split; [reflexivity |]. split; [reflexivity |].
    split; [| repeat split; reflexivity].
    rewrite query_of_games_url. unfold request_pairs.
    cbn [vars with_vars fetchGames_begin fetch currentPage set_loading set_currentPage
         selectedPublisherId selectedCategoryId].
    destruct (truthy (selectedPublisherId (vars w))), (truthy (selectedCategoryId (vars w)));
      reflexivity.
Qed.

Lemma changePage_guard_witness :
  (3 <> 1 /\ 1 <= 3 <= 5)
  /\ currentPage
       (vars (changePage 3 (with_vars (set_pagination (page_of 1 20 95 5))
                                      (mounting {| Browser.href := "/" |})))) = 3
  /\ changePage 6 (with_vars (set_pagination (page_of 1 20 95 5))
                             (mounting {| Browser.href := "/" |}))
     = with_vars (set_pagination (page_of 1 20 95 5)) (mounting {| Browser.href := "/" |}).
Proof.
  split; [split; [discriminate | lia] |].
  destruct (changePage_guard 3 (with_vars (set_pagination (page_of 1 20 95 5))
                                          (mounting {| Browser.href := "/" |}))) as [_ H3].
  destruct (changePage_guard 6 (with_vars (set_pagination (page_of 1 20 95 5))
                                          (mounting {| Browser.href := "/" |}))) as [H6 _].
  split.
  - apply H3; [discriminate | cbn; lia].
  - apply H6. right. right. cbn. lia.
Defined.

(** C7. A filter change and [clearFilters] write 1 in the current page
    before the request is built, so the request asks for page 1;
    [clearFilters] also empties both filters, and the query string of its
    request is [page=1&per_page=<page size>], with neither [category_id]
    nor [publisher_id]. *)
Theorem filters_reset_page (w : World) :
  (currentPage (vars (handleFilterChange w)) = 1
   /\ requests (handleFilterChange w)
      = (requests w ++ [games_url (vars (handleFilterChange w))])%list
   /\ URLSearchParams.get "page" (query_of (games_url (vars (handleFilterChange w))))
      = Some "1")
  /\ (forall value,
        currentPage (vars (step w (SelectCategory value))) = 1
        /\ selectedCategoryId (vars (step w (SelectCategory value))) = value
        /\ currentPage (vars (step w (SelectPublisher value))) = 1
        /\ selectedPublisherId (vars (step w (SelectPublisher value))) = value)
  /\ (currentPage (vars (clearFilters w)) = 1
      /\ selectedCategoryId (vars (clearFilters w)) = ""
      /\ selectedPublisherId (vars (clearFilters w)) = ""
      /\ requests (clearFilters w) = (requests w ++ [games_url (vars (clearFilters w))])%list
      /\ query_of (games_url (vars (clearFilters w)))
         = [("page", "1"); ("per_page", Number.toString (pageSize (vars w)))]
      /\ URLSearchParams.has "category_id" (query_of (games_url (vars (clearFilters w)))) = false
      /\ URLSearchParams.has "publisher_id" (query_of (games_url (vars (clearFilters w)))) = false).
Proof.
  split; [| split].
  - split; [reflexivity |]. split; [reflexivity |].
    rewrite query_of_games_url. unfold request_pairs, handleFilterChange.
    cbn [vars with_vars fetchGames_begin fetch currentPage set_loading set_currentPage
         selectedPublisherId selectedCategoryId].
    destruct (truthy (selectedPublisherId (vars w))), (truthy (selectedCategoryId (vars w)));
      reflexivity.
  - intros value. repeat split; reflexivity.
  - split; [reflexivity |]. split; [reflexivity |]. split; [reflexivity |].
    split; [reflexivity |]. rewrite query_of_games_url. repeat split; reflexivity.
Qed.

Example clearFilters_ex :
  requests (clearFilters (with_vars (set_selectedCategoryId "3")
                                    (with_vars (set_currentPage 4)
                                               (mounting {| Browser.href := "/" |}))))
  = ["/api/games?page=1&per_page=20"].
Proof. reflexivity. Qed.

(** ** Reading the location at mount *)

Lemma syncFiltersFromUrl_page (win : Browser.Window) :
  currentPage (synced win)
  = match URLSearchParams.get "page" (location_params win) with
    | Some v =>
        match Number.parseInt v with
        | Some n => if n <? 1 then 1 else n
        | None => 1
        end
    | None => 1
    end.
Proof.
  unfold synced, syncFiltersFromUrl, mounting, location_params. cbn [window].
  set (params := URLSearchParams.parse (Browser.search win)).
  assert (E : forall w, currentPage (vars
                match URLSearchParams.get "per_page" params with
                | Some v =>
                    if truthy v then
                      match Number.parseInt v with
                      | Some parsedPerPage =>
                          if existsb (Z.eqb parsedPerPage) pageSizeOptions
                          then with_vars (set_pageSize parsedPerPage) w
                          else w
                      | None => w
                      end
                    else w
                | None => w
                end) = currentPage (vars w)).
  { intros w. destruct (URLSearchParams.get "per_page" params) as [v |]; [| reflexivity].
    destruct (truthy v); [| reflexivity].
    destruct (Number.parseInt v) as [n |]; [| reflexivity].
    destruct (existsb _ _); reflexivity. }
  rewrite E. cbn [vars with_vars currentPage set_currentPage].
  destruct (URLSearchParams.get "page" params) as [[| c r] |]; reflexivity.
Qed.

Lemma syncFiltersFromUrl_pageSize (win : Browser.Window) :
  pageSize (synced win)
  = match URLSearchParams.get "per_page" (location_params win) with
    | Some v =>
        match Number.parseInt v with
        | Some n => if existsb (Z.eqb n) pageSizeOptions then n else 20
        | None => 20
        end
    | None => 20
    end.
Proof.
  unfold synced, syncFiltersFromUrl, mounting, location_params. cbn [window].
  set (params := URLSearchParams.parse (Browser.search win)).
  destruct (URLSearchParams.get "per_page" params) as [[| c r] |]; [reflexivity | | reflexivity].
  cbn [truthy URLSearchParams.is_empty negb].
  destruct (Number.parseInt (String c r)) as [n |]; [| reflexivity].
  destruct (existsb (Z.eqb n) pageSizeOptions); reflexivity.
Qed.

Lemma pageSizeOptions_mem (n : Z) :
  existsb (Z.eqb n) pageSizeOptions = true <-> n = 10 \/ n = 20 \/ n = 50.
Proof.
  unfold pageSizeOptions. cbn [existsb]. rewrite !orb_true_iff, !Z.eqb_eq.
  intuition discriminate.
Qed.

(** C8. At mount, the requested page read from the query string is 1 when
    [page] is absent, when it does not parse as an integer, and when it
    parses to a value below 1, and the parsed value otherwise; the
    requested page size is the parsed value of [per_page] when that is 10,
    20 or 50, and the default 20 in every other case. *)
Theorem syncFiltersFromUrl_defaults (win : Browser.Window) :
  (URLSearchParams.get "page" (location_params win) = None -> currentPage (synced win) = 1)
  /\ (forall v, URLSearchParams.get "page" (location_params win) = Some v ->
        Number.parseInt v = None -> currentPage (synced win) = 1)
  /\ (forall v n, URLSearchParams.get "page" (location_params win) = Some v ->
        Number.parseInt v = Some n -> n < 1 -> currentPage (synced win) = 1)
  /\ (forall v n, URLSearchParams.get "page" (location_params win) = Some v ->
        Number.parseInt v = Some n -> 1 <= n -> currentPage (synced win) = n)
  /\ (forall v n, URLSearchParams.get "per_page" (location_params win) = Some v ->
        Number.parseInt v = Some n -> n = 10 \/ n = 20 \/ n = 50 -> pageSize (synced win) = n)
  /\ (~ (exists v n, URLSearchParams.get "per_page" (location_params win) = Some v
                     /\ Number.parseInt v = Some n /\ (n = 10 \/ n = 20 \/ n = 50)) ->
      pageSize (synced win) = 20).
Proof.
  rewrite syncFiltersFromUrl_page, syncFiltersFromUrl_pageSize.
  split; [intros ->; reflexivity |].
  split; [intros v -> ->; reflexivity |].
  split; [intros v n -> -> H; apply Z.ltb_lt in H; rewrite H; reflexivity |].
  split; [intros v n -> -> H; apply Z.ltb_ge in H; rewrite H; reflexivity |].
  split.
  - intros v n -> -> H. apply pageSizeOptions_mem in H. rewrite H. reflexivity.
  - intros H. destruct (URLSearchParams.get "per_page" (location_params win)) as [v |];
      [| reflexivity].
    destruct (Number.parseInt v) as [n |] eqn:En; [| reflexivity].
    destruct (existsb (Z.eqb n) pageSizeOptions) eqn:E; [| reflexivity].
    exfalso. apply H. exists v, n. apply pageSizeOptions_mem in E. auto.
Qed.

Lemma syncFiltersFromUrl_defaults_witness :
  (URLSearchParams.get "page" (location_params {| Browser.href := "/?page=0&per_page=25" |})
   = Some "0"
   /\ Number.parseInt "0" = Some 0 /\ 0 < 1)
  /\ currentPage (synced {| Browser.href := "/?page=0&per_page=25" |}) = 1
  /\ pageSize (synced {| Browser.href := "/?page=0&per_page=25" |}) = 20.
Proof.
  split; [repeat split; reflexivity |].
  destruct (syncFiltersFromUrl_defaults {| Browser.href := "/?page=0&per_page=25" |})
    as (_ & _ & Hlow & _ & _ & Hsize).
  split.
  - apply (Hlow "0" 0); [reflexivity | reflexivity | lia].
  - apply Hsize. intros (v & n & Hv & Hn & Hmem).
    assert (v = "25") by (cbv in Hv; congruence). subst v.
    assert (n = 25) by (cbv in Hn; congruence). lia.
Defined.

Example syncFiltersFromUrl_ex :
  currentPage (synced {| Browser.href := "/?page=7up&per_page=50&category_id=2" |}) = 7
  /\ pageSize (synced {| Browser.href := "/?page=7up&per_page=50&category_id=2" |}) = 50
  /\ selectedCategoryId (synced {| Browser.href := "/?page=7up&per_page=50&category_id=2" |}) = "2"
  /\ currentPage (synced {| Browser.href := "/?page=abc&per_page=15" |}) = 1
  /\ pageSize (synced {| Browser.href := "/?page=abc&per_page=15" |}) = 20
  /\ currentPage (synced {| Browser.href := "/?page=-3" |}) = 1.
Proof. repeat split; reflexivity. Qed.

(** ** The error, once set *)

Lemma fetchGames_resume_error (outcome : Outcome (option Payload.t)) (w : World) :
  error (vars w) <> None -> error (vars (fetchGames_resume outcome w)) <> None.
Proof.
  intros H. destruct (failed outcome) eqn:Ef.
  - rewrite fetchGames_resume_failed by exact Ef. discriminate.
  - destruct outcome as [err | response]; [discriminate Ef |]. cbn [failed] in Ef.
    destruct (ok response) eqn:Hok; [| discriminate Ef].
    destruct (body response) as [err | payload] eqn:Hb; [discriminate Ef |].
    rewrite (fetchGames_resume_json response payload w Hok Hb).
    cbn [vars with_vars]. rewrite (proj1 (updateBrowserUrl_vars _ _)). exact H.
Qed.

Lemma step_error (w : World) (e : Event) :
  error (vars w) <> None -> error (vars (step w e)) <> None.
Proof.
  intros H. destruct e as [v | v | | page | size | o | o | o]; cbn [step].
  1-3, 5: exact H.
  - unfold changePage. destruct (_ && _); exact H.
  - apply fetchGames_resume_error. exact H.
  - unfold fetchPublishers_resume. destruct o as [| r]; [exact H |].
    destruct (ok r); [| exact H]. destruct (body r); exact H.
  - unfold fetchCategories_resume. destruct o as [| r]; [exact H |].
    destruct (ok r); [| exact H]. destruct (body r); exact H.
Qed.

(** C9. Once [error] holds a string it is never null again: neither
    [handleFilterChange], [clearFilters], [changePage] and
    [changePageSize], nor a later [fetchGames], successful ones included,
    nor any sequence of events of the component resets it. *)
Theorem error_never_reset (w : World) :
  error (vars w) <> None ->
  error (vars (handleFilterChange w)) <> None
  /\ error (vars (clearFilters w)) <> None
  /\ (forall page, error (vars (changePage page w)) <> None)
  /\ (forall size, error (vars (changePageSize size w)) <> None)
  /\ (forall outcome, error (vars (fetchGames outcome w)) <> None)
  /\ (forall es, error (vars (run w es)) <> None).
Proof.
  intros H. split; [exact H |]. split; [exact H |]. split.
  { intros page. unfold changePage. destruct (_ && _); exact H. }
  split; [intros size; exact H |]. split.
  { intros outcome. unfold fetchGames. apply fetchGames_resume_error. exact H. }
  intros es. revert w H. unfold run.
  induction es as [| e es IH]; intros w H; [exact H |].
  cbn [fold_left]. apply IH, step_error, H.
Qed.

Lemma error_never_reset_witness :
  error (vars (fetchGames (http_error 500 "Internal Server Error")
                          (mounted {| Browser.href := "/" |}))) <> None
  /\ error (vars (run (fetchGames (http_error 500 "Internal Server Error")
                                  (mounted {| Browser.href := "/" |}))
                      [ClickClearFilters;
                       GamesArrive (json_ok (Some {| Payload.games := Some [];
                                                     Payload.pagination := Some (page_of 1 20 0 1) |}))]))
     <> None.
Proof.
  split; [discriminate |].
  apply (error_never_reset
           (fetchGames (http_error 500 "Internal Server Error") (mounted {| Browser.href := "/" |}))).
  discriminate.
Defined.

(** * Further properties *)

(** ** The range of items shown *)

(** X1. With items to show, a page inside the result and a product
    [page * per_page] of at most [MAX_SAFE_INTEGER], the range shown
    starts at 1 or later, does not end before it starts nor after the last
    item, and has at most [per_page] items, exactly [per_page] on a page
    that is full. *)
Theorem showing_range_bounds (s : State) :
  0 < totalItems s ->
  1 <= Pagination.page (pagination s) ->
  1 <= Pagination.per_page (pagination s) ->
  Pagination.page (pagination s) * Pagination.per_page (pagination s) <= MAX_SAFE_INTEGER ->
  (Pagination.page (pagination s) - 1) * Pagination.per_page (pagination s) < totalItems s ->
  1 <= showingStart s <= showingEnd s
  /\ showingEnd s <= totalItems s
  /\ showingEnd s - showingStart s + 1 <= Pagination.per_page (pagination s)
  /\ (Pagination.page (pagination s) * Pagination.per_page (pagination s) <= totalItems s ->
      showingEnd s - showingStart s + 1 = Pagination.per_page (pagination s)).
Proof.
  unfold showingStart, showingEnd. intros Ht Hp Hs _ Hin.
  destruct (totalItems s =? 0) eqn:E; [apply Z.eqb_eq in E; lia |].
  set (page := Pagination.page (pagination s)) in *.
  set (size := Pagination.per_page (pagination s)) in *.
  assert (Hm : page * size = (page - 1) * size + size) by lia.
  repeat split; try lia; nia.
Qed.

Lemma showing_range_bounds_witness :
  (0 < totalItems (set_pagination (page_of 5 20 95 5) initial)
   /\ Pagination.page (pagination (set_pagination (page_of 5 20 95 5) initial))
      * Pagination.per_page (pagination (set_pagination (page_of 5 20 95 5) initial))
      <= MAX_SAFE_INTEGER
   /\ (Pagination.page (pagination (set_pagination (page_of 5 20 95 5) initial)) - 1)
      * Pagination.per_page (pagination (set_pagination (page_of 5 20 95 5) initial))
      < totalItems (set_pagination (page_of 5 20 95 5) initial))
  /\ 1 <= showingStart (set_pagination (page_of 5 20 95 5) initial)
          <= showingEnd (set_pagination (page_of 5 20 95 5) initial)
  /\ showingEnd (set_pagination (page_of 5 20 95 5) initial)
     <= totalItems (set_pagination (page_of 5 20 95 5) initial).
Proof.
  split; [split; [| split]; unfold MAX_SAFE_INTEGER; cbn; lia |].
  destruct (showing_range_bounds (set_pagination (page_of 5 20 95 5) initial))
    as (H1 & H2 & _);
    [cbn; lia | cbn; lia | cbn; lia | unfold MAX_SAFE_INTEGER; cbn; lia | cbn; lia |].
  split; [exact H1 | exact H2].
Defined.

(** X2. For at most [MAX_SAFE_INTEGER] items, pages from 1 on and a page
    size of at least 1, the ranges of consecutive pages tile the result:
    the range of a page that does not reach the last item ends at
    [page * per_page], the next page starts right after it, and the range
    of a page that reaches the last item without overshooting
    [MAX_SAFE_INTEGER] ends there. *)
Theorem showing_ranges_tile (s s' : State) :
  0 < totalItems s <= MAX_SAFE_INTEGER ->
  1 <= Pagination.page (pagination s) ->
  1 <= Pagination.per_page (pagination s) ->
  totalItems s' = totalItems s ->
  Pagination.per_page (pagination s') = Pagination.per_page (pagination s) ->
  Pagination.page (pagination s') = Pagination.page (pagination s) + 1 ->
  (Pagination.page (pagination s) * Pagination.per_page (pagination s) < totalItems s ->
   showingEnd s = Pagination.page (pagination s) * Pagination.per_page (pagination s)
   /\ showingStart s' = showingEnd s + 1)
  /\ (totalItems s <= Pagination.page (pagination s) * Pagination.per_page (pagination s)
                     <= MAX_SAFE_INTEGER ->
      showingEnd s = totalItems s).
Proof.
  unfold showingStart, showingEnd. intros [Ht _] _ _ Et Es Ep. rewrite Et, Es, Ep.
  destruct (totalItems s =? 0) eqn:E; [apply Z.eqb_eq in E; lia |].
  split; intros H; [split |]; nia.
Qed.

Lemma showing_ranges_tile_witness :
  (0 < totalItems (set_pagination (page_of 2 20 95 5) initial) <= MAX_SAFE_INTEGER
   /\ Pagination.page (pagination (set_pagination (page_of 2 20 95 5) initial))
      * Pagination.per_page (pagination (set_pagination (page_of 2 20 95 5) initial))
      < totalItems (set_pagination (page_of 2 20 95 5) initial))
  /\ showingEnd (set_pagination (page_of 2 20 95 5) initial) = 40
  /\ showingStart (set_pagination (page_of 3 20 95 5) initial) = 41.
Proof.
  split; [split; unfold MAX_SAFE_INTEGER; cbn; lia |].
  destruct (showing_ranges_tile (set_pagination (page_of 2 20 95 5) initial)
                                (set_pagination (page_of 3 20 95 5) initial))
    as [H _];
    [unfold MAX_SAFE_INTEGER; cbn; lia | cbn; lia | cbn; lia
     | reflexivity | reflexivity | reflexivity |].
  destruct H as [H1 H2]; [cbn; lia |]. split; [exact H1 | exact H2].
Defined.

(** ** More on the pagination window *)

Lemma computeWindow_numbers (current total : Z) :
  page_numbers (computeWindow current total 2)
  = if total <=? 7 then Zrange 1 total
    else (1 :: Zrange (Z.max 2 (current - 2)) (Z.min (total - 1) (current + 2)) ++ [total])%list.
Proof.
  unfold computeWindow. destruct (total <=? 7); [apply page_numbers_map |].
  destruct (current >? 2 + 2), (current <? total - 2 - 1);
    rewrite !page_numbers_app, page_numbers_map; reflexivity.
Qed.

Lemma computeWindow_ellipsis (current total : Z) :
  In Ellipsis (computeWindow current total 2)
  <-> 7 < total /\ (4 < current \/ current < total - 3).
Proof.
  assert (Hn : forall l, ~ In Ellipsis (map PageNum l)).
  { intros l. rewrite in_map_iff. intros (x & Hx & _). discriminate Hx. }
  unfold computeWindow. destruct (total <=? 7) eqn:Ht.
  - apply Z.leb_le in Ht. split; [intros H; destruct (Hn _ H) | lia].
  - apply Z.leb_gt in Ht.
    assert (G : forall (A B : list PageItem) (l : list Z),
               In Ellipsis ([PageNum 1] ++ A ++ map PageNum l ++ B ++ [PageNum total])
               <-> In Ellipsis A \/ In Ellipsis B).
    { intros A B l. rewrite !in_app_iff. cbn [In]. split.
      - intros [[H | []] | [H | [H | [H | [H | []]]]]];
          try discriminate H; auto. destruct (Hn _ H).
      - intros [H | H]; auto. }
    rewrite G. rewrite Z.gtb_ltb.
    destruct (2 + 2 <? current) eqn:E1, (current <? total - 2 - 1) eqn:E2;
      try apply Z.ltb_lt in E1; try apply Z.ltb_ge in E1;
      try apply Z.ltb_lt in E2; try apply Z.ltb_ge in E2;
      cbn [In]; split; intros H; try lia; intuition (auto; try discriminate; try lia).
Qed.

Lemma paginationItems_In (s : State) (n : Z) :
  1 <= Pagination.page (pagination s) <= Pagination.total_pages (pagination s) ->
  (In n (page_numbers (paginationItems s))
   <-> 1 <= n <= Pagination.total_pages (pagination s)
       /\ (Pagination.total_pages (pagination s) <= 7
           \/ n = 1 \/ n = Pagination.total_pages (pagination s)
           \/ Pagination.page (pagination s) - 2 <= n <= Pagination.page (pagination s) + 2))
  /\ In (Pagination.page (pagination s)) (page_numbers (paginationItems s)).
Proof.
  intros Hc. rewrite paginationItems_computeWindow, computeWindow_numbers.
  set (current := Pagination.page (pagination s)) in *.
  set (total := Pagination.total_pages (pagination s)) in *.
  destruct (total <=? 7) eqn:Ht.
  - apply Z.leb_le in Ht. rewrite !Zrange_In. split; lia.
  - apply Z.leb_gt in Ht. cbn [In]. rewrite !in_app_iff, !Zrange_In. cbn [In]. split.
    + split; [intros [H | [H | [H | []]]]; lia |]. intros H.
      destruct (Z.eq_dec n 1); [left; lia |]. destruct (Z.eq_dec n total); [right; right; lia |].
      right. left. lia.
    + destruct (Z.eq_dec current 1); [left; lia |].
      destruct (Z.eq_dec current total); [right; right; lia |]. right. left. lia.
Qed.




(** X4. For a current page in [[1, total]] and at most
    [MAX_SAFE_INTEGER - 2] pages, the window has at most 9 entries, and it
    holds an ellipsis exactly when some page of the result is left out of
    it. *)
Theorem paginationItems_size (s : State) :
  1 <= Pagination.page (pagination s) <= Pagination.total_pages (pagination s) ->
  Pagination.total_pages (pagination s) <= MAX_SAFE_INTEGER - 2 ->
  (List.length (paginationItems s) <= 9)%nat
  /\ (In Ellipsis (paginationItems s)
      <-> exists n, 1 <= n <= Pagination.total_pages (pagination s)
                    /\ ~ In n (page_numbers (paginationItems s))).
Proof.
  intros Hc _. split.
  - rewrite paginationItems_computeWindow. unfold computeWindow.
    set (current := Pagination.page (pagination s)).
    set (total := Pagination.total_pages (pagination s)).
    destruct (total <=? 7) eqn:Ht.
    + apply Z.leb_le in Ht. unfold Zrange. rewrite !length_map, length_seq. lia.
    + assert (L : (List.length (Zrange (Z.max 2 (current - 2)) (Z.min (total - 1) (current + 2)))
                   <= 5)%nat).
      { unfold Zrange. rewrite length_map, length_seq. lia. }
      destruct (current >? 2 + 2), (current <? total - 2 - 1);
        rewrite !length_app, length_map; cbn [List.length]; lia.
  - split.
    + intros H. rewrite paginationItems_computeWindow in H.
      apply computeWindow_ellipsis in H. destruct H as [Ht H].
      destruct (Z_lt_dec 4 (Pagination.page (pagination s))) as [H4 | H4].
      * exists 2. split; [lia |]. intros Hin.
        apply (paginationItems_In s 2 Hc) in Hin. lia.
      * exists (Pagination.total_pages (pagination s) - 1). split; [lia |]. intros Hin.
        apply (paginationItems_In s _ Hc) in Hin. lia.
    + intros (n & Hn & Hnot). rewrite paginationItems_computeWindow.
      apply computeWindow_ellipsis.
      assert (Ht : 7 < Pagination.total_pages (pagination s)).
      { destruct (Z_lt_dec 7 (Pagination.total_pages (pagination s))) as [H | H]; [exact H |].
        exfalso. apply Hnot. apply (paginationItems_In s n Hc). lia. }
      split; [exact Ht | lia].
Qed.

Lemma paginationItems_size_witness :
  (1 <= Pagination.page (pagination (set_pagination (page_of 5 20 400 20) initial))
     <= Pagination.total_pages (pagination (set_pagination (page_of 5 20 400 20) initial))
   /\ Pagination.total_pages (pagination (set_pagination (page_of 5 20 400 20) initial))
      <= MAX_SAFE_INTEGER - 2)
  /\ (List.length (paginationItems (set_pagination (page_of 5 20 400 20) initial)) <= 9)%nat
  /\ In Ellipsis (paginationItems (set_pagination (page_of 5 20 400 20) initial)).
Proof.
  split; [split; unfold MAX_SAFE_INTEGER; cbn; lia |].
  destruct (paginationItems_size (set_pagination (page_of 5 20 400 20) initial)) as [Hl He];
    [cbn; lia | unfold MAX_SAFE_INTEGER; cbn; lia |].
  split; [exact Hl |]. apply He.
  exists 9. split; [cbn; lia |]. intros H.
  apply (paginationItems_In (set_pagination (page_of 5 20 400 20) initial) 9) in H;
    cbn in *; lia.
Defined.

(** ** The pager *)





(** ** Requests *)

Lemma request_pairs_get (s : State) :
  URLSearchParams.get "publisher_id" (request_pairs s)
  = (if truthy (selectedPublisherId s) then Some (selectedPublisherId s) else None)
  /\ URLSearchParams.get "category_id" (request_pairs s)
     = (if truthy (selectedCategoryId s) then Some (selectedCategoryId s) else None)
  /\ URLSearchParams.get "page" (request_pairs s) = Some (Number.toString (currentPage s))
  /\ URLSearchParams.get "per_page" (request_pairs s) = Some (Number.toString (pageSize s)).
Proof.
  unfold request_pairs.
  destruct (truthy (selectedPublisherId s)), (truthy (selectedCategoryId s));
    repeat split; reflexivity.
Qed.

Lemma games_url_get (s : State) :
  URLSearchParams.get "publisher_id" (query_of (games_url s))
  = (if truthy (selectedPublisherId s) then Some (selectedPublisherId s) else None)
  /\ URLSearchParams.get "category_id" (query_of (games_url s))
     = (if truthy (selectedCategoryId s) then Some (selectedCategoryId s) else None)
  /\ URLSearchParams.get "page" (query_of (games_url s)) = Some (Number.toString (currentPage s))
  /\ URLSearchParams.get "per_page" (query_of (games_url s))
     = Some (Number.toString (pageSize s)).
Proof. rewrite query_of_games_url. apply request_pairs_get. Qed.

(** X8. [changePageSize size] writes the page size, goes back to page 1
    and issues one request, whose query asks for page 1 with that size and
    for the filters as they are; nothing else changes but the loading
    flag. *)
Theorem changePageSize_request (size : Z) (w : World) :
  vars (changePageSize size w)
  = set_loading true (set_currentPage 1 (set_pageSize size (vars w)))
  /\ requests (changePageSize size w)
     = (requests w ++ [games_url (vars (changePageSize size w))])%list
  /\ URLSearchParams.get "page" (query_of (games_url (vars (changePageSize size w))))
     = Some "1"
  /\ URLSearchParams.get "per_page" (query_of (games_url (vars (changePageSize size w))))
     = Some (Number.toString size)
  /\ URLSearchParams.get "publisher_id" (query_of (games_url (vars (changePageSize size w))))
     = URLSearchParams.get "publisher_id" (query_of (games_url (vars w)))
  /\ URLSearchParams.get "category_id" (query_of (games_url (vars (changePageSize size w))))
     = URLSearchParams.get "category_id" (query_of (games_url (vars w)))
  /\ window (changePageSize size w) = window w.
Proof.
  split; [reflexivity |]. split; [reflexivity |].
  destruct (games_url_get (vars (changePageSize size w)))
    as (H1 & H2 & H3 & H4).
  destruct (games_url_get (vars w)) as (G1 & G2 & _ & _).
  rewrite H1, H2, H3, H4, G1, G2. repeat split; reflexivity.
Qed.

(** ** More on the location *)

Lemma path_of_app (p q : string) :
  string_forall (fun c => negb (Browser.is_delim c)) p = true ->
  Browser.path_of (p ++ String "?" q) = p.
Proof.
  induction p as [| c p IH]; [reflexivity |].
  cbn [string_forall append Browser.path_of].
  rewrite andb_true_iff, negb_true_iff. intros [-> Hp]. rewrite (IH Hp). reflexivity.
Qed.

Lemma pathname_replaceState (win : Browser.Window) (l : URLSearchParams.t) :
  l <> [] ->
  Browser.pathname
    (Browser.replaceState (with_query (Browser.pathname win) (URLSearchParams.toString l)) win)
  = Browser.pathname win.
Proof.
  intros Hl. destruct (toString_head l Hl) as (c & r & Eq).
  unfold Browser.pathname at 1, Browser.replaceState, with_query. cbn [Browser.href].
  rewrite Eq. cbn [truthy URLSearchParams.is_empty negb].
  change ("?" ++ String c r) with (String "?" (String c r)).
  apply path_of_app, path_of_plain.
Qed.

Lemma written_pairs_values (s : State) (p : Pagination.t) (name value : string) :
  In (name, value) (written_pairs s p) -> value <> "".
Proof.
  intros Hin E. subst value. unfold written_pairs in Hin.
  pose proof (truthy_toString (Pagination.page p)) as Tp.
  pose proof (truthy_toString (Pagination.per_page p)) as Ts.
  rewrite !in_app_iff in Hin. cbn [In] in Hin.
  destruct Hin as [Hin | [Hin | [Hin | [Hin | []]]]].
  - destruct (truthy (selectedCategoryId s)) eqn:T; [| destruct Hin].
    destruct Hin as [Hin | []]. injection Hin as _ E. rewrite E in T. discriminate T.
  - destruct (truthy (selectedPublisherId s)) eqn:T; [| destruct Hin].
    destruct Hin as [Hin | []]. injection Hin as _ E. rewrite E in T. discriminate T.
  - injection Hin as _ E. rewrite E in Tp. discriminate Tp.
  - injection Hin as _ E. rewrite E in Ts. discriminate Ts.
Qed.

Lemma written_pairs_has (s : State) (p : Pagination.t) :
  URLSearchParams.has "category_id" (written_pairs s p) = truthy (selectedCategoryId s)
  /\ URLSearchParams.has "publisher_id" (written_pairs s p) = truthy (selectedPublisherId s).
Proof.
  unfold written_pairs.
  destruct (truthy (selectedCategoryId s)), (truthy (selectedPublisherId s));
    split; reflexivity.
Qed.

(** X9. In a browser window, [updateBrowserUrl] keeps the path of the
    location and replaces its whole query: afterwards the location has the
    page and the page size, each set filter, no key for an unset filter,
    no empty value, and none of the parameters it had before.  It writes
    no variable and issues no request, and doing it twice is doing it
    once. *)
Theorem updateBrowserUrl_location (p : Pagination.t) (w : World) (win : Browser.Window) :
  window w = Some win ->
  exists win',
    window (updateBrowserUrl p w) = Some win'
    /\ Browser.pathname win' = Browser.pathname win
    /\ location_params win' = written_pairs (vars w) p
    /\ URLSearchParams.has "category_id" (location_params win')
       = truthy (selectedCategoryId (vars w))
    /\ URLSearchParams.has "publisher_id" (location_params win')
       = truthy (selectedPublisherId (vars w))
    /\ (forall name value, In (name, value) (location_params win') -> value <> "")
    /\ vars (updateBrowserUrl p w) = vars w
    /\ requests (updateBrowserUrl p w) = requests w
    /\ updateBrowserUrl p (updateBrowserUrl p w) = updateBrowserUrl p w.
Proof.
  intros Hw. rewrite (updateBrowserUrl_window p w win Hw).
  eexists. split; [reflexivity |].
  assert (El : location_params
                 (Browser.replaceState
                    (with_query (Browser.pathname win)
                                (URLSearchParams.toString (written_pairs (vars w) p))) win)
               = written_pairs (vars w) p).
  { unfold location_params. rewrite search_replaceState by apply written_pairs_not_nil.
    apply parse_toString. }
  pose proof (pathname_replaceState win (written_pairs (vars w) p)
                (written_pairs_not_nil (vars w) p)) as Ep.
  rewrite El. destruct (written_pairs_has (vars w) p) as [Hc Hp].
  split; [exact Ep |]. split; [reflexivity |]. split; [exact Hc |]. split; [exact Hp |].
  split; [apply written_pairs_values |]. split; [reflexivity |]. split; [reflexivity |].
  match goal with
  | |- context [updateBrowserUrl p (with_window ?x ?y)] =>
      rewrite (updateBrowserUrl_window p (with_window x y) x eq_refl)
  end.
  cbn [vars with_window]. rewrite Ep. reflexivity.
Qed.

Lemma updateBrowserUrl_location_witness :
  window (with_vars (set_selectedPublisherId "7")
                    (mounting {| Browser.href := "/games?utm=x&category_id=2#top" |}))
  = Some {| Browser.href := "/games?utm=x&category_id=2#top" |}
  /\ exists win',
       window (updateBrowserUrl (page_of 2 10 95 10)
                 (with_vars (set_selectedPublisherId "7")
                            (mounting {| Browser.href := "/games?utm=x&category_id=2#top" |})))
       = Some win'
       /\ Browser.pathname win' = "/games"
       /\ location_params win' = [("publisher_id", "7"); ("page", "2"); ("per_page", "10")].
Proof.
  split; [reflexivity |].
  destruct (updateBrowserUrl_location (page_of 2 10 95 10)
              (with_vars (set_selectedPublisherId "7")
                         (mounting {| Browser.href := "/games?utm=x&category_id=2#top" |}))
              {| Browser.href := "/games?utm=x&category_id=2#top" |} eq_refl)
    as (win' & Hw & Hp & Hl & _).
  exists win'. split; [exact Hw |]. split; [exact Hp | exact Hl].
Defined.

Lemma syncFiltersFromUrl_read (w : World) (win : Browser.Window) :
  window w = Some win ->
  syncFiltersFromUrl w = with_vars (read_params (location_params win)) w.
Proof.
  intros Hw. unfold syncFiltersFromUrl, read_params, location_params. rewrite Hw.
  set (params := URLSearchParams.parse (Browser.search win)).
  destruct (URLSearchParams.get "page" params) as [[| c r] |];
    destruct (URLSearchParams.get "per_page" params) as [[| c' r'] |];
    cbn [truthy URLSearchParams.is_empty negb];
    try reflexivity;
    destruct (Number.parseInt (String c' r')) as [n |]; try reflexivity;
    destruct (existsb (Z.eqb n) pageSizeOptions); reflexivity.
Qed.

(** X10. Whatever the query string of the location, [syncFiltersFromUrl]
    leaves a current page of at least 1 and a page size among 10, 20 and
    50 when it was one; besides these two and the two filters it writes
    nothing, and it issues no request. *)
Theorem syncFiltersFromUrl_sanitises (w : World) (win : Browser.Window) :
  window w = Some win ->
  1 <= currentPage (vars (syncFiltersFromUrl w))
  /\ (In (pageSize (vars w)) pageSizeOptions ->
      In (pageSize (vars (syncFiltersFromUrl w))) pageSizeOptions)
  /\ games (vars (syncFiltersFromUrl w)) = games (vars w)
  /\ loading (vars (syncFiltersFromUrl w)) = loading (vars w)
  /\ error (vars (syncFiltersFromUrl w)) = error (vars w)
  /\ pagination (vars (syncFiltersFromUrl w)) = pagination (vars w)
  /\ window (syncFiltersFromUrl w) = window w
  /\ requests (syncFiltersFromUrl w) = requests w.
Proof.
  intros Hw. rewrite (syncFiltersFromUrl_read w win Hw).
  unfold read_params. cbn [vars with_vars window requests currentPage pageSize
    selectedCategoryId selectedPublisherId games loading error pagination
    set_pageSize set_currentPage set_selectedPublisherId set_selectedCategoryId].
  split.
  { destruct (URLSearchParams.get "page" (location_params win)) as [v |]; [| lia].
    destruct (Number.parseInt v) as [n |]; [| lia].
    destruct (n <? 1) eqn:E; [lia | apply Z.ltb_ge in E; exact E]. }
  split.
  { intros Hin.
    destruct (URLSearchParams.get "per_page" (location_params win)) as [v |]; [| exact Hin].
    destruct (Number.parseInt v) as [n |]; [| exact Hin].
    destruct (existsb (Z.eqb n) pageSizeOptions) eqn:E; [| exact Hin].
    apply pageSizeOptions_mem in E. unfold pageSizeOptions. cbn [In]. intuition. }
  repeat split; reflexivity.
Qed.

Lemma syncFiltersFromUrl_sanitises_witness :
  window (mounting {| Browser.href := "/?page=-4&per_page=1000&publisher_id=a%20b" |})
  = Some {| Browser.href := "/?page=-4&per_page=1000&publisher_id=a%20b" |}
  /\ 1 <= currentPage (vars (syncFiltersFromUrl
                               (mounting {| Browser.href := "/?page=-4&per_page=1000&publisher_id=a%20b" |})))
  /\ In (pageSize (vars (syncFiltersFromUrl
                           (mounting {| Browser.href := "/?page=-4&per_page=1000&publisher_id=a%20b" |}))))
        pageSizeOptions.
Proof.
  split; [reflexivity |].
  destruct (syncFiltersFromUrl_sanitises
              (mounting {| Browser.href := "/?page=-4&per_page=1000&publisher_id=a%20b" |})
              {| Browser.href := "/?page=-4&per_page=1000&publisher_id=a%20b" |} eq_refl)
    as (Hp & Hs & _).
  split; [exact Hp |]. apply Hs. cbn. auto.
Defined.

(** X11. [syncFiltersFromUrl] is idempotent: reading the same location a
    second time changes nothing. *)
Theorem syncFiltersFromUrl_idempotent (w : World) :
  syncFiltersFromUrl (syncFiltersFromUrl w) = syncFiltersFromUrl w.
Proof.
  destruct (window w) as [win |] eqn:Hw.
  - rewrite (syncFiltersFromUrl_read w win Hw).
    rewrite (syncFiltersFromUrl_read _ win) by exact Hw.
    unfold with_vars. cbn [vars window requests]. f_equal.
    unfold read_params.
    cbn [pageSize set_pageSize set_currentPage set_selectedPublisherId set_selectedCategoryId
         games loading error publishers categories pagination currentPage
         selectedPublisherId selectedCategoryId].
    destruct (URLSearchParams.get "per_page" (location_params win)) as [v |]; [| reflexivity].
    destruct (Number.parseInt v) as [n |]; [| reflexivity].
    destruct (existsb (Z.eqb n) pageSizeOptions); reflexivity.
  - unfold syncFiltersFromUrl. rewrite Hw. cbn. unfold syncFiltersFromUrl. rewrite Hw.
    reflexivity.
Qed.

(** ** Every request is acceptable *)

Lemma games_url_well_formed (s : State) :
  valid_page_and_size (currentPage s) (pageSize s) -> well_formed_request (games_url s).
Proof.
  intros H. right. right. exists (currentPage s), (pageSize s).
  destruct (games_url_get s) as (_ & _ & H3 & H4). auto.
Qed.

Lemma fetchGames_begin_healthy (w : World) : healthy w -> healthy (fetchGames_begin w).
Proof.
  intros (Hc & Hp & Hr). split; [exact Hc |]. split; [exact Hp |].
  unfold fetchGames_begin, fetch. cbn [requests with_vars vars].
  apply Forall_app. split; [exact Hr |]. constructor; [| constructor].
  apply games_url_well_formed. exact Hc.
Qed.

Lemma healthy_vars (w : World) (f : State -> State) :
  healthy w ->
  valid_page_and_size (currentPage (f (vars w))) (pageSize (f (vars w))) ->
  valid_page_and_size (Pagination.page (pagination (f (vars w))))
                      (Pagination.per_page (pagination (f (vars w)))) ->
  healthy (with_vars f w).
Proof. intros (_ & _ & Hr) Hc Hp. split; [exact Hc |]. split; [exact Hp | exact Hr]. Qed.

Lemma fetchGames_resume_healthy (outcome : Outcome (option Payload.t)) (w : World) :
  healthy w -> expected (GamesArrive outcome) -> healthy (fetchGames_resume outcome w).
Proof.
  intros H He. destruct (failed outcome) eqn:Ef.
  - rewrite fetchGames_resume_failed by exact Ef.
    apply healthy_vars; [| apply H | apply H].
    apply healthy_vars; [exact H | apply H | apply H].
  - destruct outcome as [err | response]; [discriminate Ef |]. cbn [failed] in Ef.
    destruct (ok response) eqn:Hok; [| discriminate Ef].
    destruct (body response) as [err | payload] eqn:Hb; [discriminate Ef |].
    rewrite (fetchGames_resume_json response payload w Hok Hb).
    assert (Hv : valid_page_and_size
                   (Pagination.page (payload_pagination payload (pagination (vars w))))
                   (Pagination.per_page (payload_pagination payload (pagination (vars w))))).
    { cbn [expected] in He. rewrite Hb in He. unfold payload_pagination.
      destruct payload as [pl |]; [| apply H].
      destruct (Payload.pagination pl); [exact He | apply H]. }
    destruct H as (_ & _ & Hr).
    destruct (updateBrowserUrl_vars (payload_pagination payload (pagination (vars w)))
                (with_vars (installed payload) w)) as [Ev Er].
    unfold healthy. cbn [vars with_vars requests]. rewrite Ev, Er.
    split; [exact Hv |]. split; [exact Hv | exact Hr].
Qed.

Ltac healthy_vars_tac :=
  unfold healthy, valid_page_and_size in *;
  cbn [vars with_vars requests currentPage pageSize pagination
       set_games set_loading set_error set_publishers set_categories
       set_selectedPublisherId set_selectedCategoryId set_pagination
       set_currentPage set_pageSize expected] in *;
  unfold MAX_SAFE_INTEGER in *;
  intuition (auto with zarith; try lia).

Lemma step_healthy (w : World) (e : Event) : healthy w -> expected e -> healthy (step w e).
Proof.
  intros H He. destruct e as [v | v | | page | size | o | o | o]; cbn [step].
  - apply fetchGames_begin_healthy. healthy_vars_tac.
  - apply fetchGames_begin_healthy. healthy_vars_tac.
  - apply fetchGames_begin_healthy. healthy_vars_tac.
  - unfold changePage.
    destruct (negb (page =? currentPage (vars w)) && (1 <=? page)
              && (page <=? Pagination.total_pages (pagination (vars w)))) eqn:G; [| exact H].
    apply andb_true_iff in G. destruct G as [G _]. apply andb_true_iff in G.
    destruct G as [_ G]. apply Z.leb_le in G.
    apply fetchGames_begin_healthy. healthy_vars_tac.
  - cbn [expected] in He. apply fetchGames_begin_healthy. healthy_vars_tac.
  - apply fetchGames_resume_healthy; assumption.
  - unfold fetchPublishers_resume. destruct o as [| r]; [exact H |].
    destruct (ok r); [| exact H]. destruct (body r); [exact H |]. healthy_vars_tac.
  - unfold fetchCategories_resume. destruct o as [| r]; [exact H |].
    destruct (ok r); [| exact H]. destruct (body r); [exact H |]. healthy_vars_tac.
Qed.

Lemma read_params_valid (params : URLSearchParams.t) (s : State) :
  In (pageSize s) pageSizeOptions ->
  currentPage (read_params params s) <= MAX_SAFE_INTEGER ->
  valid_page_and_size (currentPage (read_params params s)) (pageSize (read_params params s)).
Proof.
  intros Hin Hmax. split; [split; [| exact Hmax] |]; revert Hmax; unfold read_params;
    cbn [currentPage pageSize set_pageSize set_currentPage set_selectedPublisherId
         set_selectedCategoryId]; intros _.
  - destruct (URLSearchParams.get "page" params) as [v |]; [| lia].
    destruct (Number.parseInt v) as [n |]; [| lia].
    destruct (n <? 1) eqn:E; [lia | apply Z.ltb_ge in E; exact E].
  - destruct (URLSearchParams.get "per_page" params) as [v |]; [| exact Hin].
    destruct (Number.parseInt v) as [n |]; [| exact Hin].
    destruct (existsb (Z.eqb n) pageSizeOptions) eqn:E; [| exact Hin].
    apply pageSizeOptions_mem in E. unfold pageSizeOptions. cbn [In]. intuition.
Qed.

Lemma mounted_healthy (win : Browser.Window) :
  currentPage (synced win) <= MAX_SAFE_INTEGER -> healthy (mounted win).
Proof.
  intros Hmax. unfold synced in Hmax.
  rewrite (syncFiltersFromUrl_read (mounting win) win eq_refl) in Hmax.
  cbn [vars with_vars mounting] in Hmax.
  unfold mounted, onMount. apply fetchGames_begin_healthy.
  rewrite (syncFiltersFromUrl_read (mounting win) win eq_refl).
  assert (Hv : valid_page_and_size
                 (currentPage (read_params (location_params win) initial))
                 (pageSize (read_params (location_params win) initial))).
  { apply read_params_valid; [cbn; auto | exact Hmax]. }
  split; [exact Hv |]. split.
  { unfold valid_page_and_size, MAX_SAFE_INTEGER. cbn. split; [lia | auto]. }
  cbn [requests fetchCategories_begin fetchPublishers_begin fetch with_vars mounting app].
  constructor; [left; reflexivity |]. constructor; [right; left; reflexivity | constructor].
Qed.

(** X13. When the page that the location asks for is at most
    [MAX_SAFE_INTEGER], the user picks page sizes among the options and
    pages up to [MAX_SAFE_INTEGER], and the server sends metadata with a
    page between 1 and [MAX_SAFE_INTEGER] and a supported page size, every
    request that the component issues after its mount, in any sequence of
    events, is one of the two requests for reference data or a request for
    games that asks for a page between 1 and [MAX_SAFE_INTEGER] and a page
    size among 10, 20 and 50. *)
Theorem requests_are_acceptable (win : Browser.Window) (es : list Event) :
  currentPage (synced win) <= MAX_SAFE_INTEGER ->
  Forall expected es ->
  Forall well_formed_request (requests (run (mounted win) es))
  /\ 1 <= currentPage (vars (run (mounted win) es)) <= MAX_SAFE_INTEGER
  /\ In (pageSize (vars (run (mounted win) es))) pageSizeOptions.
Proof.
  intros Hmax Hes.
  assert (H : healthy (run (mounted win) es)).
  { unfold run. generalize (mounted_healthy win Hmax). generalize (mounted win).
    induction Hes as [| e es He _ IH]; intros w Hw; [exact Hw |].
    cbn [fold_left]. apply IH, step_healthy; assumption. }
  destruct H as ((Hp & Hs) & _ & Hr). auto.
Qed.

Lemma requests_are_acceptable_witness :
  (currentPage (synced {| Browser.href := "/?page=0&per_page=7" |}) <= MAX_SAFE_INTEGER
   /\ Forall expected [ClickPage 3; SelectPageSize 50;
                       GamesArrive (full_response [] (page_of 1 50 95 2))])
  /\ Forall well_formed_request
       (requests (run (mounted {| Browser.href := "/?page=0&per_page=7" |})
                      [ClickPage 3; SelectPageSize 50;
                       GamesArrive (full_response [] (page_of 1 50 95 2))])).
Proof.
  assert (M : currentPage (synced {| Browser.href := "/?page=0&per_page=7" |})
              <= MAX_SAFE_INTEGER).
  { replace (currentPage (synced {| Browser.href := "/?page=0&per_page=7" |})) with 1
      by reflexivity.
    unfold MAX_SAFE_INTEGER. lia. }
  assert (E : Forall expected [ClickPage 3; SelectPageSize 50;
                               GamesArrive (full_response [] (page_of 1 50 95 2))]).
  { constructor; [cbn [expected]; unfold MAX_SAFE_INTEGER; lia |].
    constructor; [cbn; auto |]. constructor; [| constructor].
    unfold expected, full_response, json_ok, valid_page_and_size, MAX_SAFE_INTEGER.
    cbn [body Payload.pagination page_of Pagination.page Pagination.per_page].
    split; [lia | cbn; auto]. }
  split; [split; [exact M | exact E] |].
  apply (requests_are_acceptable {| Browser.href := "/?page=0&per_page=7" |} _ M E).
Defined.

(** ** Responses that overlap *)

Lemma fetchGames_resume_json_ok (payload : option Payload.t) (w : World) :
  fetchGames_resume (json_ok payload) w
  = with_vars (set_loading false)
      (updateBrowserUrl (payload_pagination payload (pagination (vars w)))
                        (with_vars (installed payload) w)).
Proof.
  exact (fetchGames_resume_json
           {| status := 200; statusText := "OK"; body := BodyJson payload |}
           payload w eq_refl eq_refl).
Qed.

Lemma fetchGames_resume_full_vars (gs : list GameApiResponse.t) (pg : Pagination.t) (w : World) :
  vars (fetchGames_resume (full_response gs pg) w)
  = set_loading false
      (set_pageSize (Pagination.per_page pg)
         (set_currentPage (Pagination.page pg)
            (set_pagination pg (set_games (map to_game gs) (vars w))))).
Proof.
  unfold full_response. rewrite fetchGames_resume_json_ok.
  cbn [vars with_vars]. rewrite (proj1 (updateBrowserUrl_vars _ _)). reflexivity.
Qed.

Lemma fetchGames_resume_window (outcome : Outcome (option Payload.t)) (w : World)
      (win : Browser.Window) :
  window w = Some win -> exists win', window (fetchGames_resume outcome w) = Some win'.
Proof.
  intros Hw. destruct (failed outcome) eqn:Ef.
  - rewrite fetchGames_resume_failed by exact Ef. exists win. exact Hw.
  - destruct outcome as [err | response]; [discriminate Ef |]. cbn [failed] in Ef.
    destruct (ok response) eqn:Hok; [| discriminate Ef].
    destruct (body response) as [err | payload] eqn:Hb; [discriminate Ef |].
    rewrite (fetchGames_resume_json response payload w Hok Hb).
    rewrite (updateBrowserUrl_window _ (with_vars (installed payload) w) win Hw).
    eexists. reflexivity.
Qed.

Lemma fetchGames_resume_full_window (gs : list GameApiResponse.t) (pg : Pagination.t)
      (w : World) (win : Browser.Window) :
  window w = Some win ->
  exists win',
    window (fetchGames_resume (full_response gs pg) w) = Some win'
    /\ URLSearchParams.get "page" (location_params win')
       = Some (Number.toString (Pagination.page pg))
    /\ URLSearchParams.get "per_page" (location_params win')
       = Some (Number.toString (Pagination.per_page pg)).
Proof.
  intros Hw. unfold full_response. rewrite fetchGames_resume_json_ok.
  cbn [payload_pagination Payload.pagination].
  match goal with
  | |- context [updateBrowserUrl pg ?x] =>
      rewrite (updateBrowserUrl_window pg x win Hw); set (s' := vars x)
  end.
  eexists. split; [reflexivity |].
  unfold location_params. rewrite search_replaceState by apply written_pairs_not_nil.
  rewrite parse_toString.
  destruct (written_pairs_get s' pg) as (_ & _ & Gpage & Gsize).
  split; [exact Gpage | exact Gsize].
Qed.

(** X14. Between two responses for games the one that arrives last wins:
    the games, the pagination, the current page, the page size and the
    page in the location are those of the response taken in last, in
    either order of arrival and whichever request was issued first. *)
Theorem last_arrival_wins (w : World)
    (gsA gsB : list GameApiResponse.t) (pgA pgB : Pagination.t) :
  (games (vars (fetchGames_resume (full_response gsB pgB)
                  (fetchGames_resume (full_response gsA pgA) w))) = map to_game gsB
   /\ pagination (vars (fetchGames_resume (full_response gsB pgB)
                          (fetchGames_resume (full_response gsA pgA) w))) = pgB
   /\ currentPage (vars (fetchGames_resume (full_response gsB pgB)
                           (fetchGames_resume (full_response gsA pgA) w)))
      = Pagination.page pgB)
  /\ (games (vars (fetchGames_resume (full_response gsA pgA)
                     (fetchGames_resume (full_response gsB pgB) w))) = map to_game gsA
      /\ pagination (vars (fetchGames_resume (full_response gsA pgA)
                             (fetchGames_resume (full_response gsB pgB) w))) = pgA
      /\ currentPage (vars (fetchGames_resume (full_response gsA pgA)
                              (fetchGames_resume (full_response gsB pgB) w)))
         = Pagination.page pgA)
  /\ (forall win, window w = Some win ->
      exists win',
        window (fetchGames_resume (full_response gsB pgB)
                  (fetchGames_resume (full_response gsA pgA) w)) = Some win'
        /\ URLSearchParams.get "page" (location_params win')
           = Some (Number.toString (Pagination.page pgB))).
Proof.
  rewrite !fetchGames_resume_full_vars.
  split; [repeat split; reflexivity |]. split; [repeat split; reflexivity |].
  intros win Hw.
  destruct (fetchGames_resume_window (full_response gsA pgA) w win Hw) as [winA HA].
  destruct (fetchGames_resume_full_window gsB pgB _ winA HA) as (win' & H1 & H2 & _).
  exists win'. split; [exact H1 | exact H2].
Qed.





(** ** User events and reference data *)




(** ** Without a window *)

Lemma step_without_window (w : World) (e : Event) :
  window w = None -> window (step w e) = None.
Proof.
  intros Hw. destruct e as [v | v | | page | size | o | o | o].
  1-5, 7-8:
    match goal with
    | Hx : window ?x = None |- window (step ?x ?e) = None =>
        rewrite (proj1 (step_keeps_location_and_pagination x e ltac:(intros; discriminate)));
        exact Hx
    end.
  cbn [step]. destruct (failed o) eqn:Ef.
  - rewrite fetchGames_resume_failed by exact Ef. exact Hw.
  - destruct o as [err | response]; [discriminate Ef |]. cbn [failed] in Ef.
    destruct (ok response) eqn:Hok; [| discriminate Ef].
    destruct (body response) as [err | payload] eqn:Hb; [discriminate Ef |].
    rewrite (fetchGames_resume_json response payload w Hok Hb).
    unfold updateBrowserUrl. cbn [window with_vars]. rewrite Hw. exact Hw.
Qed.

(** X19. Where there is no window, [syncFiltersFromUrl] and
    [updateBrowserUrl] do nothing, no sequence of events makes a window
    appear, and a successful response is taken in all the same. *)
Theorem without_window (w : World) :
  window w = None ->
  syncFiltersFromUrl w = w
  /\ (forall p, updateBrowserUrl p w = w)
  /\ (forall es, window (run w es) = None)
  /\ (forall payload,
        vars (fetchGames_resume (json_ok payload) w)
        = set_loading false (installed payload (vars w))).
Proof.
  intros Hw. split; [unfold syncFiltersFromUrl; rewrite Hw; reflexivity |].
  split; [intros p; unfold updateBrowserUrl; rewrite Hw; reflexivity |].
  split.
  - intros es. revert w Hw. unfold run.
    induction es as [| e es IH]; intros w Hw; [exact Hw |].
    cbn [fold_left]. apply IH, step_without_window, Hw.
  - intros payload. rewrite fetchGames_resume_json_ok.
    cbn [vars with_vars]. rewrite (proj1 (updateBrowserUrl_vars _ _)). reflexivity.
Qed.

Lemma without_window_witness :
  window {| vars := initial; window := None; requests := [] |} = None
  /\ window (run {| vars := initial; window := None; requests := [] |}
                 [ClickClearFilters; GamesArrive (full_response [] (page_of 1 20 0 1))])
     = None.
Proof.
  split; [reflexivity |].
  destruct (without_window {| vars := initial; window := None; requests := [] |} eq_refl)
    as (_ & _ & H & _).
  apply H.
Defined.

(** ** The component before pagination *)

Lemma legacy_resume_failed (outcome : Outcome (list Legacy.Game.t)) (w : Legacy.World) :
  failed outcome = true ->
  Legacy.fetchGames_resume outcome w
  = Legacy.with_vars (Legacy.set_loading false)
      (Legacy.with_vars (Legacy.set_error (failure_message outcome)) w).
Proof.
  unfold failed, Legacy.fetchGames_resume, Legacy.fetchGames_try, failure_message.
  destruct outcome as [err | response]; [reflexivity |].
  destruct (ok response); [| reflexivity].
  destruct (body response); [reflexivity | discriminate].
Qed.

Lemma legacy_step_error (w : Legacy.World) (e : Legacy.Event) :
  Legacy.error (Legacy.vars w) <> None ->
  Legacy.error (Legacy.vars (Legacy.step w e)) <> None.
Proof.
  intros H. destruct e as [v | v | | o | o | o]; cbn [Legacy.step].
  1-3: exact H.
  - destruct (failed o) eqn:Ef.
    + rewrite legacy_resume_failed by exact Ef. discriminate.
    + destruct o as [err | response]; [discriminate Ef |]. cbn [failed] in Ef.
      unfold Legacy.fetchGames_resume, Legacy.fetchGames_try.
      destruct (ok response); [| discriminate Ef].
      destruct (body response); [discriminate Ef | exact H].
  - unfold Legacy.fetchPublishers_resume. destruct o as [| r]; [exact H |].
    destruct (ok r); [| exact H]. destruct (body r); exact H.
  - unfold Legacy.fetchCategories_resume. destruct o as [| r]; [exact H |].
    destruct (ok r); [| exact H]. destruct (body r); exact H.
Qed.

(** X22. In the script before pagination, a fetch that fails writes the
    error and turns the loading flag off without touching the games; a
    successful one replaces the games by the body as it is and leaves the
    error as it was; and once the error holds a string, no sequence of
    events makes it null again. *)
Theorem legacy_fetch_outcomes (w : Legacy.World) :
  (forall outcome, failed outcome = true ->
     Legacy.games (Legacy.vars (Legacy.fetchGames_resume outcome w))
     = Legacy.games (Legacy.vars w)
     /\ Legacy.error (Legacy.vars (Legacy.fetchGames_resume outcome w))
        = Some (failure_message outcome)
     /\ Legacy.view (Legacy.vars (Legacy.fetchGames_resume outcome w))
        = Legacy.ViewError (failure_message outcome))
  /\ (forall value,
        Legacy.games (Legacy.vars (Legacy.fetchGames_resume (json_ok value) w)) = value
        /\ Legacy.error (Legacy.vars (Legacy.fetchGames_resume (json_ok value) w))
           = Legacy.error (Legacy.vars w)
        /\ Legacy.loading (Legacy.vars (Legacy.fetchGames_resume (json_ok value) w)) = false)
  /\ (Legacy.error (Legacy.vars w) <> None ->
      forall es, Legacy.error (Legacy.vars (Legacy.run w es)) <> None).
Proof.
  split; [| split].
  - intros outcome Hf. rewrite legacy_resume_failed by exact Hf.
    split; [reflexivity |]. split; [reflexivity |].
    unfold Legacy.view. cbn. rewrite (failure_message_truthy outcome Hf). reflexivity.
  - intros value. repeat split; reflexivity.
  - intros H es. revert w H. unfold Legacy.run.
    induction es as [| e es IH]; intros w H; [exact H |].
    cbn [fold_left]. apply IH, legacy_step_error, H.
Qed.

Lemma legacy_fetch_outcomes_witness :
  Legacy.error (Legacy.vars (Legacy.fetchGames_resume (http_error 502 "Bad Gateway")
                                                      Legacy.mounted)) <> None
  /\ Legacy.error
       (Legacy.vars (Legacy.run (Legacy.fetchGames_resume (http_error 502 "Bad Gateway")
                                                          Legacy.mounted)
                                [Legacy.ClickClearFilters; Legacy.GamesArrive (json_ok [])]))
     <> None.
Proof.
  split; [discriminate |].
  destruct (legacy_fetch_outcomes
              (Legacy.fetchGames_resume (http_error 502 "Bad Gateway") Legacy.mounted))
    as (_ & _ & H).
  apply H. discriminate.
Defined.

(** ** Bodies of any shape *)

Lemma coalesce_not_nullish (a b : Raw.Value) :
  Raw.nullish b = false -> Raw.nullish (Raw.coalesce a b) = false.
Proof.
  intros Hb. unfold Raw.coalesce. destruct (Raw.nullish a) eqn:Ha; assumption.
Qed.

Lemma to_game_nullish (game : Raw.Value) :
  Raw.nullish game = true -> Raw.to_game game = inl (Raw.ReadOfNullish "id").
Proof.
  intros H. unfold Raw.to_game, Raw.read. rewrite H. reflexivity.
Qed.

Lemma to_game_not_nullish (game : Raw.Value) :
  Raw.nullish game = false -> exists g, Raw.to_game game = inr g.
Proof.
  intros H. unfold Raw.to_game, Raw.read. rewrite H. eexists. reflexivity.
Qed.

Lemma all_right_to_game (items : list Raw.Value) :
  (exists mapped, Raw.all_right (map Raw.to_game items) = inr mapped)
  <-> Forall (fun x => Raw.nullish x = false) items.
Proof.
  induction items as [|x r IHr].
  - split; [constructor | intros _; exists []; reflexivity].
  - split.
    + intros [mapped H]. cbn in H.
      destruct (Raw.nullish x) eqn:Hx.
      * rewrite (to_game_nullish x Hx) in H. discriminate.
      * constructor; [exact Hx|]. apply IHr.
        destruct (Raw.to_game x); [discriminate|].
        fold (Raw.all_right (map Raw.to_game r)) in H.
        destruct (Raw.all_right (map Raw.to_game r)) as [k|tail]; [discriminate|].
        exists tail. reflexivity.
    + intros H. inversion H as [|? ? Hx Hr]; subst.
      destruct (to_game_not_nullish x Hx) as [g Hg].
      destruct (proj2 IHr Hr) as [tail Htail].
      exists (g :: tail). cbn. rewrite Hg. unfold Raw.all_right in Htail.
      rewrite Htail. reflexivity.
Qed.

Lemma map_games_mappable (v : Raw.Value) :
  mappable v <-> exists mapped, Raw.map_games v = inr mapped.
Proof.
  split.
  - intros [items [-> H]]. cbn. apply all_right_to_game. exact H.
  - intros [mapped H]. destruct v; try discriminate.
    exists items. split; [reflexivity|]. apply all_right_to_game.
    exists mapped. exact H.
Qed.

Lemma take_in_unmappable engine (payload : Raw.Value) (w : Raw.World) k :
  Raw.map_games (api_games payload) = inl k ->
  Raw.take_in engine payload w = (w, Some (Raw.type_error engine k)).
Proof.
  intros H. unfold Raw.take_in. fold (api_games payload). rewrite H. reflexivity.
Qed.

Lemma take_in_mapped engine (payload : Raw.Value) (w : Raw.World) mapped :
  Raw.nullish (Raw.pagination (Raw.vars w)) = false ->
  Raw.map_games (api_games payload) = inr mapped ->
  let pg := api_pagination payload w in
  let installed :=
    {| Raw.vars := raw_installed mapped pg (Raw.vars w); Raw.window := Raw.window w |} in
  Raw.take_in engine payload w =
  match Raw.updateBrowserUrl pg installed with
  | inl k => (installed, Some (Raw.type_error engine k))
  | inr w' => (w', None)
  end.
Proof.
  intros Hpg H pg installed. unfold Raw.take_in.
  fold (api_games payload). fold (api_pagination payload w). fold pg. rewrite H.
  assert (Hn : Raw.nullish pg = false) by (apply coalesce_not_nullish; exact Hpg).
  cbn [Raw.with_vars Raw.vars Raw.window Raw.set_pagination Raw.set_games Raw.pagination
       Raw.set_currentPage Raw.set_pageSize].
  unfold Raw.read. rewrite Hn. cbn [Raw.vars Raw.window Raw.pagination Raw.set_currentPage].
  reflexivity.
Qed.

Lemma updateBrowserUrl_vars_raw (pg : Raw.Value) (w w' : Raw.World) :
  Raw.updateBrowserUrl pg w = inr w' -> Raw.vars w' = Raw.vars w.
Proof.
  unfold Raw.updateBrowserUrl. destruct (Raw.window w) as [win|].
  - repeat match goal with
           | |- context [match ?x with _ => _ end] => destruct x; try discriminate
           end;
      intros E; injection E as <-; reflexivity.
  - intros E. injection E as <-. reflexivity.
Qed.

Lemma updateBrowserUrl_without_page (pg : Raw.Value) (w : Raw.World) win category publisher :
  Raw.window w = Some win ->
  Raw.selectedCategoryId (Raw.vars w) = Raw.VString category ->
  Raw.selectedPublisherId (Raw.vars w) = Raw.VString publisher ->
  Raw.nullish pg = false ->
  Raw.nullish (Raw.prop pg "page") = true ->
  Raw.updateBrowserUrl pg w = inl (Raw.ReadOfNullish "toString").
Proof.
  intros Hwin Hc Hp Hpg Hpage. unfold Raw.updateBrowserUrl, Raw.set_param, Raw.read.
  rewrite Hwin, Hc, Hp, Hpg. unfold Raw.call_toString. rewrite Hpage.
  cbn [Raw.to_string].
  destruct (Raw.truthy (Raw.VString category)), (Raw.truthy (Raw.VString publisher));
    reflexivity.
Qed.

(** C1, amended.  A successful response whose body is no JSON ends in
    failure with the text of the exception and nothing else written; a
    JSON body ends in failure exactly when [games] is given and is not an
    array free of [null] (nothing else written), or when writing the
    location throws, the games and the pagination being written by then; a
    body that lacks [games] is taken with the empty list and that alone is
    no failure, nor is a body that lacks [pagination]. *)
Theorem successful_response_bodies engine (response : Response Raw.Value) (w : Raw.World) :
  ok response = true ->
  Raw.nullish (Raw.pagination (Raw.vars w)) = false ->
  let after := Raw.fetchGames_resume engine (Resolved response) w in
  (forall err, body response = BodyInvalid err ->
     Raw.vars after
     = Raw.set_loading false (Raw.set_error ("Error: " ++ thrown_text err) (Raw.vars w))
     /\ Raw.window after = Raw.window w)
  /\ (forall payload, body response = BodyJson payload ->
      let pg := api_pagination payload w in
      (Raw.nullish (Raw.optional payload "games") = true -> api_games payload = Raw.VArray [])
      /\ (Raw.nullish (Raw.optional payload "pagination") = true ->
          pg = Raw.pagination (Raw.vars w))
      /\ (~ mappable (api_games payload) ->
          exists k,
            Raw.map_games (api_games payload) = inl k
            /\ Raw.vars after
               = Raw.set_loading false (Raw.set_error ("Error: " ++ engine k) (Raw.vars w))
            /\ Raw.window after = Raw.window w)
      /\ (mappable (api_games payload) ->
          exists mapped,
            Raw.map_games (api_games payload) = inr mapped
            /\ let installed :=
                 {| Raw.vars := raw_installed mapped pg (Raw.vars w);
                    Raw.window := Raw.window w |} in
               (forall k, Raw.updateBrowserUrl pg installed = inl k ->
                  Raw.vars after
                  = Raw.set_loading false
                      (Raw.set_error ("Error: " ++ engine k) (Raw.vars installed))
                  /\ Raw.window after = Raw.window w)
               /\ (forall w', Raw.updateBrowserUrl pg installed = inr w' ->
                     Raw.vars after = Raw.set_loading false (Raw.vars installed))
               /\ (forall win category publisher,
                     Raw.window w = Some win ->
                     Raw.selectedCategoryId (Raw.vars w) = Raw.VString category ->
                     Raw.selectedPublisherId (Raw.vars w) = Raw.VString publisher ->
                     Raw.nullish (Raw.prop pg "page") = true ->
                     Raw.updateBrowserUrl pg installed
                     = inl (Raw.ReadOfNullish "toString")))).
Proof.
  intros Hok Hpg after. subst after. unfold Raw.fetchGames_resume, Raw.fetchGames_try.
  rewrite Hok. split.
  - intros err ->. split; reflexivity.
  - intros payload Hbody. rewrite Hbody. cbv zeta.
    set (pg := api_pagination payload w). split; [|split; [|split]].
    + intros H. unfold api_games, Raw.coalesce. rewrite H. reflexivity.
    + intros H. unfold pg, api_pagination, Raw.coalesce. rewrite H. reflexivity.
    + intros Hno. destruct (Raw.map_games (api_games payload)) as [k|mapped] eqn:Hmap.
      * exists k. split; [reflexivity|].
        rewrite (take_in_unmappable engine payload w k Hmap). split; reflexivity.
      * exfalso. apply Hno. apply map_games_mappable. exists mapped. exact Hmap.
    + intros Hyes. destruct (proj1 (map_games_mappable _) Hyes) as [mapped Hmap].
      exists mapped. split; [exact Hmap|].
      rewrite (take_in_mapped engine payload w mapped Hpg Hmap).
      fold pg.
      set (installed := {| Raw.vars := raw_installed mapped pg (Raw.vars w);
                           Raw.window := Raw.window w |}).
      split; [|split].
      * intros k Hk. rewrite Hk. split; reflexivity.
      * intros w' Hw'. rewrite Hw'. cbn [Raw.with_vars Raw.vars].
        rewrite (updateBrowserUrl_vars_raw pg installed w' Hw'). reflexivity.
      * intros win category publisher Hwin Hc Hp Hpage.
        apply (updateBrowserUrl_without_page pg installed win category publisher);
          try assumption.
        apply coalesce_not_nullish. exact Hpg.
Qed.

Lemma successful_response_bodies_witness :
  Raw.error
    (Raw.vars
       (Raw.fetchGames_resume sample_engine
          (Resolved {| status := 200; statusText := "OK";
                       body := BodyJson (Raw.VObject [("games", Raw.VNumber 5)]) |})
          (showing {| Browser.href := "/games" |})))
  = Some "Error: apiGames.map is not a function"
  /\ Raw.games
       (Raw.vars
          (Raw.fetchGames_resume sample_engine
             (Resolved {| status := 200; statusText := "OK";
                          body := BodyJson (Raw.VObject [("games", Raw.VNumber 5)]) |})
             (showing {| Browser.href := "/games" |})))
     = [shown_game].
Proof.
  destruct (successful_response_bodies sample_engine
              {| status := 200; statusText := "OK";
                 body := BodyJson (Raw.VObject [("games", Raw.VNumber 5)]) |}
              (showing {| Browser.href := "/games" |}) eq_refl eq_refl) as [_ H].
  destruct (H (Raw.VObject [("games", Raw.VNumber 5)]) eq_refl) as (_ & _ & Hno & _).
  destruct Hno as [k [Hk [Hv _]]].
  - intros [items [E _]]. discriminate E.
  - rewrite Hv. injection Hk as <-. split; reflexivity.
Defined.

(** ** Failures on values of any shape *)




(** ** Filters bound to numbers *)

(** C3, counterexample.  The identifier of an option is the number that
    the server gave, and the binding of the select element stores it as
    it is.  The number 0 is not written to the location, so that the
    filter is unset when the location is read back. *)
Lemma numeric_filter_not_read_back :
  ~ (forall (w w' : Raw.World) (p : Pagination.t),
        Raw.window w <> None ->
        1 <= Pagination.page p <= MAX_SAFE_INTEGER ->
        In (Pagination.per_page p) pageSizeOptions ->
        Raw.updateBrowserUrl (metadata p) w = inr w' ->
        Raw.VString (selectedCategoryId (read_back w')) = Raw.selectedCategoryId (Raw.vars w)
        /\ Raw.VString (selectedPublisherId (read_back w')) = Raw.selectedPublisherId (Raw.vars w)
        /\ currentPage (read_back w') = Pagination.page p
        /\ pageSize (read_back w') = Pagination.per_page p).
Proof.
  intros H.
  destruct (H (raw_world (Raw.VNumber 0) (Raw.VString "") {| Browser.href := "/games" |})
              {| Raw.vars := Raw.vars (raw_world (Raw.VNumber 0) (Raw.VString "")
                                         {| Browser.href := "/games" |});
                 Raw.window := Some {| Browser.href := "/games?page=2&per_page=10" |} |}
              (page_of 2 10 95 10)) as [Hc _].
  - discriminate.
  - cbn. unfold MAX_SAFE_INTEGER. lia.
  - cbn. auto.
  - reflexivity.
  - discriminate Hc.
Qed.

Example numeric_filter_ex :
  Raw.updateBrowserUrl (metadata (page_of 2 10 95 10))
    (raw_world (Raw.VNumber 3) (Raw.VNumber 0) {| Browser.href := "/games" |})
  = inr {| Raw.vars := Raw.vars (raw_world (Raw.VNumber 3) (Raw.VNumber 0)
                                   {| Browser.href := "/games" |});
           Raw.window := Some {| Browser.href := "/games?category_id=3&page=2&per_page=10" |} |}
  /\ selectedCategoryId
       (read_back {| Raw.vars := Raw.vars (raw_world (Raw.VNumber 3) (Raw.VNumber 0)
                                             {| Browser.href := "/games" |});
                     Raw.window :=
                       Some {| Browser.href := "/games?category_id=3&page=2&per_page=10" |} |})
     = "3"
  /\ selectedPublisherId
       (read_back {| Raw.vars := Raw.vars (raw_world (Raw.VNumber 3) (Raw.VNumber 0)
                                             {| Browser.href := "/games" |});
                     Raw.window :=
                       Some {| Browser.href := "/games?category_id=3&page=2&per_page=10" |} |})
     = "".
Proof.
  split; [|split]; reflexivity.
Qed.

(** ** Successful responses without metadata *)


Example success_without_metadata_ex :
  let loaded :=
    fetchGames_resume
      (json_ok (Some {| Payload.games := Some [];
                        Payload.pagination := Some (page_of 1 20 95 5) |}))
      (mounted {| Browser.href := "/games" |}) in
  let asked := changePage 3 loaded in
  let answered :=
    fetchGames_resume
      (json_ok (Some {| Payload.games := Some []; Payload.pagination := None |})) asked in
  currentPage (vars asked) = 3
  /\ last (requests asked) "" = "/api/games?page=3&per_page=20"
  /\ error (vars answered) = None
  /\ pagination (vars answered) = page_of 1 20 95 5
  /\ currentPage (vars answered) = 1
  /\ window answered = Some {| Browser.href := "/games?page=1&per_page=20" |}.
Proof.
  cbv zeta. repeat split; reflexivity.
Qed.

(** ** Values of the declared types *)

(** On filters that are strings and metadata of the declared shape,
    [updateBrowserUrl] on values of any type does not throw and writes
    the location that the typed one writes. *)
Lemma updateBrowserUrl_typed (pg : Pagination.t) (w : World) (r : Raw.World) :
  Raw.window r = window w ->
  Raw.selectedCategoryId (Raw.vars r) = Raw.VString (selectedCategoryId (vars w)) ->
  Raw.selectedPublisherId (Raw.vars r) = Raw.VString (selectedPublisherId (vars w)) ->
  exists r',
    Raw.updateBrowserUrl (metadata pg) r = inr r'
    /\ Raw.vars r' = Raw.vars r
    /\ Raw.window r' = window (updateBrowserUrl pg w).
Proof.
  intros Hw Hc Hp. unfold Raw.updateBrowserUrl, updateBrowserUrl, Raw.set_param.
  rewrite Hw, Hc, Hp. destruct (window w) as [win|] eqn:Ewin.
  - cbn [Raw.truthy Raw.to_string Raw.read Raw.nullish metadata].
    fold (truthy (selectedCategoryId (vars w))).
    fold (truthy (selectedPublisherId (vars w))).
    destruct (truthy (selectedCategoryId (vars w))), (truthy (selectedPublisherId (vars w)));
      eexists; (split; [reflexivity | split; reflexivity]).
  - eexists. split; [reflexivity | split; [reflexivity |]].
    cbn. rewrite Ewin. exact Hw.
Qed.
